(** * Keyboard shortcuts of the enhanced player: [src/js/hotkey.js]

    A shallow embedding of the [HotKey] class and the proofs of its
    dispatch rules and numeric policies.

    Modelling conventions.
    - A JavaScript number is [JS.number]: [NaN], the two infinities, or a
      finite value carried as an exact rational.  Finite arithmetic is the
      exact arithmetic of the rationals: the rounding of binary64, overflow
      and the sign of zero are not modelled.  Results of arithmetic are kept
      in lowest terms, so that equal numbers are equal terms.
    - A JavaScript string is a [string] of bytes; case mapping is the ASCII
      one.
    - An instance of the class is known by its identity [this]: the two
      functions that the constructor binds are different for each instance.
    - The player, the document and the event are records of the fields the
      class reads.  What a handler does to them (calls of player methods,
      [preventDefault], the assignment to [video.muted], the canvas calls)
      is the list of its [Effect]s, in program order.  No handler reads the
      player again after it has called one of its methods or assigned to it,
      so a handler is a function from the state it is called in to that
      list. *)

From Stdlib Require Import ZArith QArith Qround Qreduction Qabs Lqa Lia.
From Stdlib Require Import String Ascii List Bool DecimalString DecimalPos.
Import ListNotations.

(* ================================================================== *)
(** ** JavaScript numbers and strings *)
(* ================================================================== *)

Module JS.

Inductive number : Type :=
| NaN
| Inf (negative : bool)
| Fin (q : Q).

(** A finite result, in lowest terms. *)
Definition fin (q : Q) : number := Fin (Qred q).

Definition Qneg (q : Q) : bool := (Qnum q <? 0)%Z.
Definition Qzero (q : Q) : bool := Qeq_bool q 0.

(** Rounding towards zero, used by the remainder. *)
Definition Qtrunc (q : Q) : Z := if Qneg q then Qceiling q else Qfloor q.

Definition add (x y : number) : number :=
  match x, y with
  | NaN, _ | _, NaN => NaN
  | Inf a, Inf b => if Bool.eqb a b then Inf a else NaN
  | Inf a, Fin _ => Inf a
  | Fin _, Inf b => Inf b
  | Fin p, Fin q => fin (p + q)
  end.

Definition sub (x y : number) : number :=
  match x, y with
  | NaN, _ | _, NaN => NaN
  | Inf a, Inf b => if Bool.eqb a b then NaN else Inf a
  | Inf a, Fin _ => Inf a
  | Fin _, Inf b => Inf (negb b)
  | Fin p, Fin q => fin (p - q)
  end.

Definition mul (x y : number) : number :=
  match x, y with
  | NaN, _ | _, NaN => NaN
  | Inf a, Inf b => Inf (xorb a b)
  | Inf a, Fin q | Fin q, Inf a =>
      if Qzero q then NaN else Inf (xorb a (Qneg q))
  | Fin p, Fin q => fin (p * q)
  end.

Definition div (x y : number) : number :=
  match x, y with
  | NaN, _ | _, NaN => NaN
  | Inf _, Inf _ => NaN
  | Inf a, Fin q => Inf (xorb a (Qneg q))
  | Fin _, Inf _ => Fin 0
  | Fin p, Fin q =>
      if Qzero q then (if Qzero p then NaN else Inf (Qneg p))
      else fin (p / q)
  end.

(** The [%] operator: the remainder has the sign of the dividend. *)
Definition rem (x y : number) : number :=
  match x, y with
  | NaN, _ | _, NaN => NaN
  | Inf _, _ => NaN
  | Fin p, Inf _ => Fin p
  | Fin p, Fin q =>
      if Qzero q then NaN else fin (p - q * inject_Z (Qtrunc (p / q)))
  end.

(** [x < y] and [x >= y]: every comparison with [NaN] is false. *)
Definition lt (x y : number) : bool :=
  match x, y with
  | NaN, _ | _, NaN => false
  | Inf a, Inf b => a && negb b
  | Inf a, Fin _ => a
  | Fin _, Inf b => negb b
  | Fin p, Fin q => negb (Qle_bool q p)
  end.

Definition ge (x y : number) : bool :=
  match x, y with
  | NaN, _ | _, NaN => false
  | _, _ => negb (lt x y)
  end.

(** ToBoolean on a number: [NaN] and zero are falsy. *)
Definition truthy (x : number) : bool :=
  match x with
  | NaN => false
  | Inf _ => true
  | Fin q => negb (Qzero q)
  end.

Definition Math_max (x y : number) : number :=
  match x, y with
  | NaN, _ | _, NaN => NaN
  | _, _ => if lt x y then y else x
  end.

Definition Math_min (x y : number) : number :=
  match x, y with
  | NaN, _ | _, NaN => NaN
  | _, _ => if lt y x then y else x
  end.

Definition Math_floor (x : number) : number :=
  match x with
  | Fin q => Fin (inject_Z (Qfloor q))
  | _ => x
  end.

(** [Math.round] rounds to the nearest integer, halves towards +infinity. *)
Definition Math_round (x : number) : number :=
  match x with
  | Fin q => Fin (inject_Z (Qfloor (q + (1 # 2))))
  | _ => x
  end.

(** *** Strings *)

Local Open Scope string_scope.

Definition Z_to_string (n : Z) : string := NilZero.string_of_int (Z.to_int n).

Definition digit_char (d : Z) : ascii := ascii_of_nat (48 + Z.to_nat d).

(** The first [fuel] decimals of [r], for [0 <= r < 1], stopping when the
    expansion ends. *)
Fixpoint fraction_digits (fuel : nat) (r : Q) : string :=
  match fuel with
  | O => ""
  | S fuel' =>
      if Qzero r then ""
      else let d := Qfloor (r * 10) in
           String (digit_char d) (fraction_digits fuel' (r * 10 - inject_Z d))
  end.

(** ToString on a number.  It is the JavaScript one on [NaN], on the
    infinities and on the integers below 10^21 in magnitude, which are all
    that the class converts; other values get a truncated decimal
    expansion. *)
Definition toString (x : number) : string :=
  match x with
  | NaN => "NaN"
  | Inf false => "Infinity"
  | Inf true => "-Infinity"
  | Fin q =>
      let n := Qfloor q in
      if Qeq_bool q (inject_Z n) then Z_to_string n
      else let a := Qabs q in
           (if Qneg q then "-" else "") ++ Z_to_string (Qfloor a) ++ "."
           ++ fraction_digits 17 (a - inject_Z (Qfloor a))
  end.

Definition lower_ascii (c : ascii) : ascii :=
  let n := nat_of_ascii c in
  if ((65 <=? n) && (n <=? 90))%nat then ascii_of_nat (n + 32) else c.

Definition upper_ascii (c : ascii) : ascii :=
  let n := nat_of_ascii c in
  if ((97 <=? n) && (n <=? 122))%nat then ascii_of_nat (n - 32) else c.

Fixpoint map_string (f : ascii -> ascii) (s : string) : string :=
  match s with
  | EmptyString => EmptyString
  | String c s' => String (f c) (map_string f s')
  end.

Definition toLowerCase : string -> string := map_string lower_ascii.
Definition toUpperCase : string -> string := map_string upper_ascii.

(** [n] characters read off [cur], starting over from [pad] when [cur]
    runs out. *)
Fixpoint fill (n : nat) (pad cur : string) : string :=
  match n with
  | O => ""
  | S n' =>
      match cur with
      | String c rest => String c (fill n' pad rest)
      | EmptyString =>
          match pad with
          | String c rest => String c (fill n' pad rest)
          | EmptyString => ""
          end
      end
  end.

(** [s.padStart(target, pad)]. *)
Definition padStart (target : nat) (pad s : string) : string :=
  if (String.length s <? target)%nat
  then fill (target - String.length s) pad pad ++ s
  else s.

(** [parseInt(s)] without a radix: leading white space, a sign, a [0x]
    prefix for base 16, then the longest run of digits. *)
Definition is_space (c : ascii) : bool :=
  let n := nat_of_ascii c in
  ((n =? 32) || ((9 <=? n) && (n <=? 13)))%nat.

Definition digit_value (radix : Z) (c : ascii) : option Z :=
  let n := Z.of_nat (nat_of_ascii (lower_ascii c)) in
  let v := if ((48 <=? n) && (n <=? 57))%Z then Some (n - 48)%Z
           else if ((97 <=? n) && (n <=? 122))%Z then Some (n - 87)%Z
           else None in
  match v with
  | Some d => if (d <? radix)%Z then Some d else None
  | None => None
  end.

Fixpoint parse_digits (radix : Z) (acc : option Z) (s : string) : option Z :=
  match s with
  | EmptyString => acc
  | String c s' =>
      match digit_value radix c with
      | Some d =>
          let a := match acc with Some a => a | None => 0%Z end in
          parse_digits radix (Some (radix * a + d)%Z) s'
      | None => acc
      end
  end.

Fixpoint skip_space (s : string) : string :=
  match s with
  | String c s' => if is_space c then skip_space s' else s
  | EmptyString => s
  end.

Definition parse_unsigned (s : string) : option Z :=
  match s with
  | String "0" (String "x" s') | String "0" (String "X" s') =>
      parse_digits 16 None s'
  | _ => parse_digits 10 None s
  end.

Definition parseInt (s : string) : number :=
  let s := skip_space s in
  let (negative, body) :=
    match s with
    | String "-" s' => (true, s')
    | String "+" s' => (false, s')
    | _ => (false, s)
    end in
  match parse_unsigned body with
  | Some n => Fin (inject_Z (if negative then - n else n))
  | None => NaN
  end.

End JS.

Declare Scope js_scope.
Delimit Scope js_scope with js.
Bind Scope js_scope with JS.number.
Infix "+" := JS.add : js_scope.
Infix "-" := JS.sub : js_scope.
Infix "*" := JS.mul : js_scope.
Infix "/" := JS.div : js_scope.
Infix "<" := JS.lt : js_scope.
Infix ">=" := JS.ge : js_scope.
Coercion JS.Fin : Q >-> JS.number.

Local Open Scope string_scope.
Local Open Scope Z_scope.
Local Open Scope Q_scope.

(* ================================================================== *)
(** ** The event, the player and the document *)
(* ================================================================== *)

(** The fields of a [keydown] event that the handlers read. *)
Record KeyboardEvent : Type := {
  key : string;
  keyCode : Z;
  ctrlKey : bool;
  shiftKey : bool;
  location : Z
}.

(** The argument of the [fullScreen] methods: ['browser'] or ['web']. *)
Inductive FullScreenType : Type := browser | web.

Record Video : Type := {
  currentTime : JS.number;
  duration : JS.number;
  playbackRate : JS.number;
  muted : bool;
  videoWidth : JS.number;
  videoHeight : JS.number
}.

Record Options : Type := {
  hotkey : bool;
  live : bool
}.

(** The player as the class reads it: [volume] is what [player.volume()]
    returns, [isFullScreen] what [player.fullScreen.isFullScreen(type)]
    returns. *)
Record Player : Type := {
  options : Options;
  focus : bool;
  video : Video;
  volume : JS.number;
  isFullScreen : FullScreenType -> bool
}.

(** [getAttribute] returns [null], here [None], for an absent attribute. *)
Record Element : Type := {
  tagName : string;
  contenteditable : option string
}.

(** The identity of an instance of the class: [new HotKey(player)] makes a
    new one at each call. *)
Definition Instance : Type := nat.

(** The functions that the constructor binds to the instance [this] and
    keeps in [this.doHotKeyHandler] and [this.cancelFullScreenHandler]: as
    each construction binds anew, two instances never share a listener. *)
Inductive Listener : Type :=
| doHotKeyHandler (this : Instance)
| cancelFullScreenHandler (this : Instance).

(** The instance that a listener is bound to. *)
Definition owner (l : Listener) : Instance :=
  match l with
  | doHotKeyHandler this | cancelFullScreenHandler this => this
  end.

Record Document : Type := {
  activeElement : Element;
  keydown : list Listener
}.

(** What a handler does, one constructor per call or assignment:
    [event.preventDefault()], [player.toggle()], [player.seek(time)] or
    [player.seek(time, true)], [player.controller.setAutoHide()],
    [player.volume(v)], [player.speed(rate)], [player.notice(text)],
    [player.video.muted = b], [player.fullScreen.request(type)],
    [player.fullScreen.cancel(type)], the drawing of the frame on a canvas
    of the given size, and [canvas.toBlob] with a callback that downloads
    the image under the given file name. *)
Inductive Effect : Type :=
| PreventDefault
| Toggle
| Seek (time : JS.number) (second : option bool)
| SetAutoHide
| SetVolume (v : JS.number)
| Speed (rate : JS.number)
| Notice (text : string)
| SetMuted (b : bool)
| FullScreenRequest (type : FullScreenType)
| FullScreenCancel (type : FullScreenType)
| DrawImage (width height : JS.number)
| ToBlob (download : string).

(* ================================================================== *)
(** ** The class [HotKey] *)
(* ================================================================== *)

(** [s === t] for an attribute value that may be [null]. *)
Definition attr_is (a : option string) (t : string) : bool :=
  match a with
  | Some s => (s =? t)%string
  | None => false
  end.

(** Whether two listeners are the same function. *)
Definition same_listener (l l' : Listener) : bool :=
  match l, l' with
  | doHotKeyHandler this, doHotKeyHandler this'
  | cancelFullScreenHandler this, cancelFullScreenHandler this' =>
      Nat.eqb this this'
  | _, _ => false
  end.

(** [document.addEventListener('keydown', l)]: the listener goes to the end
    of the list; the very function that is already registered is not added
    again. *)
Definition addEventListener (doc : Document) (l : Listener) : Document :=
  {| activeElement := activeElement doc;
     keydown := if existsb (same_listener l) (keydown doc)
                then keydown doc
                else keydown doc ++ [l] |}.

Definition removeEventListener (doc : Document) (l : Listener) : Document :=
  {| activeElement := activeElement doc;
     keydown := filter (fun l' => negb (same_listener l l')) (keydown doc) |}.

(** [new HotKey(player)], for the new instance [this]. *)
Definition constructor (this : Instance) (p : Player) (doc : Document)
  : Document :=
  let doc := if hotkey (options p)
             then addEventListener doc (doHotKeyHandler this)
             else doc in
  addEventListener doc (cancelFullScreenHandler this).

Definition takeScreenshot (p : Player) : list Effect :=
  let width := videoWidth (video p) in
  let height := videoHeight (video p) in
  let time := currentTime (video p) in
  let h := JS.padStart 2 "0" (JS.toString (JS.Math_floor (time / 3600)%js)) in
  let m := JS.padStart 2 "0"
             (JS.toString (JS.Math_floor (JS.rem time 3600 / 60)%js)) in
  let s := JS.padStart 2 "0" (JS.toString (JS.Math_floor (JS.rem time 60))) in
  let timestamp := h ++ "-" ++ m ++ "-" ++ s in
  [DrawImage width height;
   ToBlob ("screenshot_" ++ timestamp ++ ".png");
   Notice ("Screenshot: " ++ timestamp)].

Definition changeSpeed (p : Player) (delta : JS.number) : list Effect :=
  let newRate := (playbackRate (video p) + delta)%js in
  let newRate := JS.Math_max 0.25 (JS.Math_min 2 newRate) in
  let newRate := (JS.Math_round (newRate * 100) / 100)%js in
  [Speed newRate].

Definition resetSpeed (p : Player) : list Effect :=
  [Speed 1].

Definition seekToPercent (p : Player) (percent : JS.number) : list Effect :=
  if JS.truthy (duration (video p)) then
    let time := (percent / 100 * duration (video p))%js in
    [Seek time (Some true);
     Notice ("Seek: " ++ JS.toString percent ++ "%")]
  else [].

Definition digit_keys : list string :=
  ["0"; "1"; "2"; "3"; "4"; "5"; "6"; "7"; "8"; "9"].

Definition handleLetterKeys (p : Player) (event : KeyboardEvent) (key : string)
  : list Effect :=
  let lowerKey := JS.toLowerCase key in
  let currentTime := currentTime (video p) in
  let duration := duration (video p) in
  if (lowerKey =? "a")%string then
    PreventDefault ::
    (if live (options p) then []
     else (if (currentTime >= 5)%js
           then [Seek (currentTime - 5)%js None]
           else [Seek 0 None])
          ++ [SetAutoHide])
  else if (lowerKey =? "d")%string then
    PreventDefault ::
    (if live (options p) then []
     else (if JS.truthy duration && (currentTime + 5 < duration)%js
           then [Seek (currentTime + 5)%js None]
           else if JS.truthy duration
                then [Seek (duration - 1)%js None]
                else [])
          ++ [SetAutoHide])
  else if (lowerKey =? "f")%string then
    PreventDefault ::
    (if isFullScreen p browser
     then [FullScreenCancel browser]
     else [FullScreenRequest browser])
  else if (lowerKey =? "w")%string then
    PreventDefault ::
    (if isFullScreen p web
     then [FullScreenCancel web]
     else [FullScreenRequest web])
  else if (lowerKey =? "m")%string then
    PreventDefault ::
    (if muted (video p)
     then [SetMuted false; Notice "Unmuted"]
     else [SetMuted true; Notice "Muted"])
  else if (lowerKey =? "+")%string || (lowerKey =? "=")%string then
    PreventDefault :: changeSpeed p 0.05
  else if (lowerKey =? "-")%string then
    PreventDefault :: changeSpeed p (-0.05)
  else if existsb (String.eqb lowerKey) digit_keys then
    PreventDefault ::
    (if negb (live (options p))
     then seekToPercent p (JS.parseInt lowerKey * 10)%js
     else [])
  else [].

Definition doHotKey (p : Player) (doc : Document) (event : KeyboardEvent)
  : list Effect :=
  if focus p then
    let tag := JS.toUpperCase (tagName (activeElement doc)) in
    let editable := contenteditable (activeElement doc) in
    if (tag =? "INPUT")%string || (tag =? "TEXTAREA")%string
       || attr_is editable "" || attr_is editable "true"
    then []
    else
      let key := key event in
      let keyCode := keyCode event in
      if ctrlKey event && (JS.toLowerCase key =? "x")%string then
        PreventDefault :: changeSpeed p 0.05
      else if ctrlKey event && (JS.toLowerCase key =? "z")%string then
        PreventDefault :: changeSpeed p (-0.05)
      else if ctrlKey event && shiftKey event then
        PreventDefault :: resetSpeed p
      else if shiftKey event && (JS.toLowerCase key =? "s")%string then
        PreventDefault :: takeScreenshot p
      else
        match keyCode with
        | 32%Z => [PreventDefault; Toggle]
        | 37%Z =>
            PreventDefault ::
            (if live (options p) then []
             else [Seek (currentTime (video p) - 5)%js None; SetAutoHide])
        | 39%Z =>
            PreventDefault ::
            (if live (options p) then []
             else [Seek (currentTime (video p) + 5)%js None; SetAutoHide])
        | 38%Z => [PreventDefault; SetVolume (volume p + 0.1)%js]
        | 40%Z => [PreventDefault; SetVolume (volume p - 0.1)%js]
        | 13%Z =>
            if (location event =? 3)%Z
            then PreventDefault :: resetSpeed p
            else []
        | _ => handleLetterKeys p event key
        end
  else [].

Definition cancelFullScreen (p : Player) (doc : Document)
  (event : KeyboardEvent) : list Effect :=
  if (keyCode event =? 27)%Z then
    if isFullScreen p web then [FullScreenCancel web] else []
  else [].

Definition destroy (this : Instance) (p : Player) (doc : Document)
  : Document :=
  let doc := if hotkey (options p)
             then removeEventListener doc (doHotKeyHandler this)
             else doc in
  removeEventListener doc (cancelFullScreenHandler this).

(** What a registered listener runs when a [keydown] event is fired: the
    method that it was bound from, on the player of its instance as it is
    then. *)
Definition handler (l : Listener)
  : Player -> Document -> KeyboardEvent -> list Effect :=
  match l with
  | doHotKeyHandler _ => doHotKey
  | cancelFullScreenHandler _ => cancelFullScreen
  end.

(* ================================================================== *)
(** ** Vocabulary of the statements *)
(* ================================================================== *)

(** An event is eligible when the player has the focus and the active
    element is neither a text field nor editable. *)
Definition eligible (p : Player) (doc : Document) : bool :=
  let tag := JS.toUpperCase (tagName (activeElement doc)) in
  let editable := contenteditable (activeElement doc) in
  focus p
  && negb ((tag =? "INPUT")%string || (tag =? "TEXTAREA")%string
           || attr_is editable "" || attr_is editable "true").

(** The conditions of the four modifier rules, in their order. *)
Definition rule1 (e : KeyboardEvent) : bool :=
  ctrlKey e && (JS.toLowerCase (key e) =? "x")%string.
Definition rule2 (e : KeyboardEvent) : bool :=
  ctrlKey e && (JS.toLowerCase (key e) =? "z")%string.
Definition rule3 (e : KeyboardEvent) : bool :=
  ctrlKey e && shiftKey e.
Definition rule4 (e : KeyboardEvent) : bool :=
  shiftKey e && (JS.toLowerCase (key e) =? "s")%string.

Definition modifier_rule (e : KeyboardEvent) : bool :=
  rule1 e || rule2 e || rule3 e || rule4 e.

(** The traces that issue no seek. *)
Definition no_seek (l : list Effect) : Prop :=
  forall t s, ~ In (Seek t s) l.

(** [clamp x lo hi] is [x] brought into the interval from [lo] to [hi]. *)
Definition clamp (x lo hi : Q) : Q :=
  if Qle_bool x lo then lo else if Qle_bool hi x then hi else x.

(** The key label of the digit [k]. *)
Definition digit_label (k : Z) : string := String (JS.digit_char k) "".

(** [t mod m] on the rationals, for [m > 0]. *)
Definition Qmod (t m : Q) : Q := t - m * inject_Z (Qfloor (t / m)).

(** A number of hours, minutes or seconds on at least two digits. *)
Definition two_digits (n : Z) : string :=
  if (n <? 10)%Z then "0" ++ JS.Z_to_string n else JS.Z_to_string n.

(** HH-MM-SS for the time [t], in seconds. *)
Definition timestamp (t : Q) : string :=
  two_digits (Qfloor (t / 3600)) ++ "-"
  ++ two_digits (Qfloor (Qmod t 3600 / 60)) ++ "-"
  ++ two_digits (Qfloor (Qmod t 60)).

(* ================================================================== *)
(** ** Example states and events *)
(* ================================================================== *)

Definition example_video : Video :=
  {| currentTime := 3; duration := 100; playbackRate := 1; muted := false;
     videoWidth := 1280; videoHeight := 720 |}.

Definition example_player : Player :=
  {| options := {| hotkey := true; live := false |};
     focus := true;
     video := example_video;
     volume := 1;
     isFullScreen := fun _ => false |}.

Definition example_document : Document :=
  {| activeElement := {| tagName := "BODY"; contenteditable := None |};
     keydown := [] |}.

(** Two instances of the class. *)
Definition first_instance : Instance := 0%nat.
Definition second_instance : Instance := 1%nat.

Definition keydown_event (k : string) (code : Z) (ctrl shift : bool)
  : KeyboardEvent :=
  {| key := k; keyCode := code; ctrlKey := ctrl; shiftKey := shift;
     location := 0 |}.

Definition ctrl_shift_x : KeyboardEvent := keydown_event "X" 88 true true.
Definition ctrl_shift_enter : KeyboardEvent :=
  keydown_event "Enter" 13 true true.
Definition ctrl_shift_up : KeyboardEvent :=
  keydown_event "ArrowUp" 38 true true.
Definition ctrl_shift_7 : KeyboardEvent := keydown_event "7" 55 true true.
Definition plain_enter : KeyboardEvent := keydown_event "Enter" 13 false false.
Definition plain_up : KeyboardEvent := keydown_event "ArrowUp" 38 false false.
Definition plain_left : KeyboardEvent :=
  keydown_event "ArrowLeft" 37 false false.
Definition plain_right : KeyboardEvent :=
  keydown_event "ArrowRight" 39 false false.

Definition plain_d : KeyboardEvent := keydown_event "d" 68 false false.
Definition plain_7 : KeyboardEvent := keydown_event "7" 55 false false.
Definition escape : KeyboardEvent := keydown_event "Escape" 27 false false.

(** A keydown with the code of Enter and the label of a letter rule. *)
Definition enter_labelled_m : KeyboardEvent :=
  keydown_event "m" 13 false false.

Definition with_video (v : Video) : Player :=
  {| options := options example_player;
     focus := true;
     video := v;
     volume := 1;
     isFullScreen := fun _ => false |}.

(** A player at 97 seconds of 100, one at rate 2, one on a video of 200
    seconds, one at 125.4 seconds, one on a video of half a second. *)
Definition near_end_player : Player :=
  with_video {| currentTime := 97; duration := 100; playbackRate := 1;
                muted := false; videoWidth := 1280; videoHeight := 720 |}.

Definition rate_two_player : Player :=
  with_video {| currentTime := 3; duration := 100; playbackRate := 2;
                muted := false; videoWidth := 1280; videoHeight := 720 |}.

Definition long_video_player : Player :=
  with_video {| currentTime := 3; duration := 200; playbackRate := 1;
                muted := false; videoWidth := 1280; videoHeight := 720 |}.

Definition capture_player : Player :=
  with_video {| currentTime := 125.4; duration := 200; playbackRate := 1;
                muted := false; videoWidth := 1280; videoHeight := 720 |}.

Definition short_video_player : Player :=
  with_video {| currentTime := 0; duration := 0.5; playbackRate := 1;
                muted := false; videoWidth := 1280; videoHeight := 720 |}.

Definition plain_a : KeyboardEvent := keydown_event "a" 65 false false.

Definition live_player : Player :=
  {| options := {| hotkey := true; live := true |};
     focus := true;
     video := example_video;
     volume := 1;
     isFullScreen := fun _ => false |}.

(** A player without the focus, in the in-page full screen only, and one
    in the browser full screen only. *)
Definition web_fullscreen_player : Player :=
  {| options := {| hotkey := false; live := false |};
     focus := false;
     video := example_video;
     volume := 1;
     isFullScreen := fun type =>
                       match type with web => true | browser => false end |}.

Definition browser_fullscreen_player : Player :=
  {| options := {| hotkey := false; live := false |};
     focus := false;
     video := example_video;
     volume := 1;
     isFullScreen := fun type =>
                       match type with web => false | browser => true end |}.

Definition input_document : Document :=
  {| activeElement := {| tagName := "INPUT"; contenteditable := None |};
     keydown := [] |}.

(* ================================================================== *)
(** ** Vocabulary of the further properties *)
(* ================================================================== *)

(** The event [e] with another key label. *)
Definition with_key (e : KeyboardEvent) (k : string) : KeyboardEvent :=
  {| key := k; keyCode := keyCode e; ctrlKey := ctrlKey e;
     shiftKey := shiftKey e; location := location e |}.

(** The player [p] with other options. *)
Definition with_options (o : Options) (p : Player) : Player :=
  {| options := o; focus := focus p; video := video p; volume := volume p;
     isFullScreen := isFullScreen p |}.

(** The key codes that the switch of [doHotKey] has a case for. *)
Definition switch_codes : list Z := [32; 37; 39; 38; 40; 13]%Z.

(** The labels that the switch of [handleLetterKeys] has a case for. *)
Definition letter_keys : list string :=
  ["a"; "d"; "f"; "w"; "m"; "+"; "="; "-"] ++ digit_keys.

(** The effects on the player, the canvas and the controller: all but
    [preventDefault]. *)
Definition is_action (eff : Effect) : bool :=
  match eff with
  | PreventDefault => false
  | _ => true
  end.

(** The letter that toggles a full screen. *)
Definition fullscreen_key (type : FullScreenType) : string :=
  match type with
  | browser => "f"
  | web => "w"
  end.

(** The rate that [changeSpeed] passes on, from the current rate [r] and
    the change [d]: the clamped sum, rounded to a hundredth. *)
Definition new_rate (r d : Q) : Q :=
  inject_Z (Qfloor (clamp (r + d) 0.25 2 * 100 + (1 # 2))) / 100.

Definition faster_player : Player :=
  with_video {| currentTime := 3; duration := 100; playbackRate := 21 # 20;
                muted := false; videoWidth := 1280; videoHeight := 720 |}.

(** The document [doc] with the [contenteditable] attribute of its active
    element removed. *)
Definition without_contenteditable (doc : Document) : Document :=
  {| activeElement := {| tagName := tagName (activeElement doc);
                         contenteditable := None |};
     keydown := keydown doc |}.

Definition numpad_enter : KeyboardEvent :=
  {| key := "Enter"; keyCode := 13; ctrlKey := false; shiftKey := false;
     location := 3 |}.

(** The instance [this] has no listener on the document yet, as at its
    construction. *)
Definition fresh (this : Instance) (doc : Document) : Prop :=
  forall l, In l (keydown doc) -> owner l <> this.

(** The listeners that the construction of [this] for the player [p]
    registers, in their order. *)
Definition own_listeners (this : Instance) (p : Player) : list Listener :=
  (if hotkey (options p) then [doHotKeyHandler this] else [])
  ++ [cancelFullScreenHandler this].

Definition plain_space : KeyboardEvent := keydown_event " " 32 false false.
Definition plain_m : KeyboardEvent := keydown_event "m" 77 false false.
Definition plain_f : KeyboardEvent := keydown_event "f" 70 false false.
Definition plain_q : KeyboardEvent := keydown_event "q" 81 false false.
Definition plain_0 : KeyboardEvent := keydown_event "0" 48 false false.
Definition shift_s : KeyboardEvent := keydown_event "S" 83 false true.
Definition ctrl_shift_s : KeyboardEvent := keydown_event "S" 83 true true.
Definition ctrl_x : KeyboardEvent := keydown_event "x" 88 true false.

(** An element that is editable as plain text only. *)
Definition plaintext_document : Document :=
  {| activeElement := {| tagName := "DIV";
                         contenteditable := Some "plaintext-only" |};
     keydown := [] |}.

(** A player in its last second, and one on a stream without end. *)
Definition last_second_player : Player :=
  with_video {| currentTime := 99.5; duration := 100; playbackRate := 1;
                muted := false; videoWidth := 1280; videoHeight := 720 |}.

Definition endless_player : Player :=
  with_video {| currentTime := 3; duration := JS.Inf false; playbackRate := 1;
                muted := false; videoWidth := 1280; videoHeight := 720 |}.

Definition unknown_duration_player : Player :=
  with_video {| currentTime := 3; duration := JS.NaN; playbackRate := 1;
                muted := false; videoWidth := 1280; videoHeight := 720 |}.

(* ================================================================== *)
(** ** Facts about the number model *)
(* ================================================================== *)

Module JSFacts.
Import JS.

Lemma Qzero_false (q : Q) : ~ q == 0 -> Qzero q = false.
Proof.
  intros H. unfold Qzero. destruct (Qeq_bool q 0) eqn:E; [|reflexivity].
  apply Qeq_bool_eq in E. contradiction.
Qed.

Lemma Qzero_true (q : Q) : q == 0 -> Qzero q = true.
Proof. intros H. unfold Qzero. now apply Qeq_eq_bool. Qed.

Lemma Qneg_false (q : Q) : 0 <= q -> Qneg q = false.
Proof.
  unfold Qneg, Qle. destruct q as [n d]; simpl. intros H.
  apply Z.ltb_ge. lia.
Qed.

Lemma lt_Fin (p q : Q) : lt (Fin p) (Fin q) = true <-> p < q.
Proof.
  simpl. rewrite negb_true_iff. split; intros H.
  - apply Qnot_le_lt. intros L. apply Qle_bool_iff in L. congruence.
  - destruct (Qle_bool q p) eqn:E; [|reflexivity].
    apply Qle_bool_iff in E. lra.
Qed.

Lemma lt_Fin_false (p q : Q) : lt (Fin p) (Fin q) = false <-> q <= p.
Proof.
  simpl. rewrite negb_false_iff. apply Qle_bool_iff.
Qed.

Lemma ge_Fin (p q : Q) : ge (Fin p) (Fin q) = true <-> q <= p.
Proof.
  unfold ge. rewrite negb_true_iff. apply lt_Fin_false.
Qed.

Lemma truthy_Fin (q : Q) : truthy (Fin q) = true <-> ~ q == 0.
Proof.
  simpl. rewrite negb_true_iff. split; intros H.
  - intros E. apply Qzero_true in E. congruence.
  - now apply Qzero_false.
Qed.

Lemma Qfloor_Qred (q : Q) : Qfloor (Qred q) = Qfloor q.
Proof. apply Qfloor_comp, Qred_correct. Qed.

Lemma Qtrunc_nonneg (q : Q) : 0 <= q -> Qtrunc q = Qfloor q.
Proof. intros H. unfold Qtrunc. now rewrite Qneg_false. Qed.

End JSFacts.

(* ================================================================== *)
(** ** Speed policy *)
(* ================================================================== *)

Lemma clamp_bounds (x lo hi : Q) : lo <= hi -> lo <= clamp x lo hi <= hi.
Proof.
  intros H. unfold clamp.
  destruct (Qle_bool x lo) eqn:E1; [lra|].
  destruct (Qle_bool hi x) eqn:E2; [lra|].
  assert (~ x <= lo) by (intros L; apply Qle_bool_iff in L; congruence).
  assert (~ hi <= x) by (intros L; apply Qle_bool_iff in L; congruence).
  lra.
Qed.

Lemma Math_clamp (lo hi y : Q) :
  lo <= hi ->
  exists z, JS.Math_max lo (JS.Math_min hi y) = JS.Fin z /\ z == clamp y lo hi.
Proof.
  intros H. unfold clamp, JS.Math_min, JS.Math_max.
  destruct (JS.lt y hi) eqn:E1.
  - apply JSFacts.lt_Fin in E1.
    destruct (JS.lt lo y) eqn:E2.
    + apply JSFacts.lt_Fin in E2. exists y. split; [reflexivity|].
      destruct (Qle_bool y lo) eqn:E3; [apply Qle_bool_iff in E3; lra|].
      destruct (Qle_bool hi y) eqn:E4; [apply Qle_bool_iff in E4; lra|].
      reflexivity.
    + apply JSFacts.lt_Fin_false in E2. exists lo. split; [reflexivity|].
      apply Qle_bool_iff in E2. rewrite E2. reflexivity.
  - apply JSFacts.lt_Fin_false in E1.
    destruct (JS.lt lo hi) eqn:E2.
    + apply JSFacts.lt_Fin in E2. exists hi. split; [reflexivity|].
      destruct (Qle_bool y lo) eqn:E3; [apply Qle_bool_iff in E3; lra|].
      apply Qle_bool_iff in E1. rewrite E1. reflexivity.
    + apply JSFacts.lt_Fin_false in E2. exists lo. split; [reflexivity|].
      destruct (Qle_bool y lo) eqn:E3; [reflexivity|].
      apply Qle_bool_iff in E1. rewrite E1. lra.
Qed.

(** The nearest multiple of 1/100, as [changeSpeed] computes it. *)
Lemma round_hundredths (z : Q) :
  let n := Qfloor (Qred (z * 100) + (1 # 2)) in
  Qabs (inject_Z n / 100 - z) <= 1 # 200.
Proof.
  intros n.
  assert (L := Qfloor_le (Qred (z * 100) + (1 # 2))).
  assert (U := Qlt_floor (Qred (z * 100) + (1 # 2))).
  fold n in L, U. rewrite inject_Z_plus in U.
  rewrite Qred_correct in L, U.
  apply Qabs_Qle_condition. change (inject_Z 1) with 1 in U.
  clearbody n. set (x := inject_Z n) in *. clearbody x.
  setoid_replace (x / 100) with (x * (1 # 100)) by (unfold Qdiv; reflexivity).
  split; lra.
Qed.

Lemma round_hundredths_bounds (z : Q) :
  (1 # 4) <= z <= 2 ->
  (25 <= Qfloor (Qred (z * 100) + (1 # 2)) <= 200)%Z.
Proof.
  intros [L U]. split.
  - change 25%Z with (Qfloor 25).
    apply Qfloor_resp_le. rewrite Qred_correct. lra.
  - change 200%Z with (Qfloor (200 + (1 # 2))).
    apply Qfloor_resp_le. rewrite Qred_correct. lra.
Qed.

Lemma clamp_comp (x y lo hi : Q) : x == y -> clamp x lo hi == clamp y lo hi.
Proof.
  intros E. unfold clamp.
  assert (E1 : Qle_bool x lo = Qle_bool y lo)
    by (apply Qleb_comp; [exact E|reflexivity]).
  assert (E2 : Qle_bool hi x = Qle_bool hi y)
    by (apply Qleb_comp; [reflexivity|exact E]).
  rewrite E1, E2.
  destruct (Qle_bool y lo); [reflexivity|].
  destruct (Qle_bool hi y); [reflexivity|exact E].
Qed.

(** C4.  For every rate [r] and every delta [d], [changeSpeed] makes one
    call of [player.speed], with [clamp (r + d) 0.25 2.0] rounded to the
    nearest hundredth; the new rate lies between 0.25 and 2.0; and at the
    upper bound the rate stays 2.0 (at the lower bound, 0.25). *)
Theorem changeSpeed_clamps_and_rounds (p : Player) (r d : Q) :
  playbackRate (video p) = JS.Fin r ->
  (exists x : Q,
      changeSpeed p d = [Speed x]
      /\ (exists n : Z, x == inject_Z n / 100)
      /\ Qabs (x - clamp (r + d) 0.25 2) <= 1 # 200
      /\ 0.25 <= x <= 2)
  /\ (2 <= r + d -> changeSpeed p d = [Speed 2])
  /\ (r + d <= 0.25 -> changeSpeed p d = [Speed (1 # 4)]).
Proof.
  intros Hr. unfold changeSpeed. cbv zeta. rewrite Hr. cbn [JS.add]. unfold JS.fin.
  split; [|split].
  - destruct (Math_clamp 0.25 2 (Qred (r + d))) as [z [Hz Ez]]; [lra|].
    rewrite Hz. cbn [JS.mul JS.Math_round JS.div]. unfold JS.fin.
    cbn [JS.Math_round JS.div]. change (JS.Qzero 100) with false.
    cbv iota. unfold JS.fin.
    set (n := Qfloor (Qred (z * 100) + (1 # 2))).
    exists (Qred (inject_Z n / 100)). split; [reflexivity|].
    rewrite (clamp_comp _ _ 0.25 2 (Qred_correct (r + d))) in Ez.
    assert (B : 0.25 <= z <= 2) by (rewrite Ez; apply clamp_bounds; lra).
    assert (Hn := round_hundredths_bounds z).
    assert (Ha := round_hundredths z). cbv zeta in Ha. fold n in Hn, Ha.
    split; [exists n; apply Qred_correct|].
    rewrite !Qred_correct.
    split; [rewrite <- Ez; exact Ha|].
    destruct Hn as [Hl Hu]; [lra|].
    rewrite Zle_Qle in Hl, Hu.
    setoid_replace (inject_Z n / 100) with (inject_Z n * (1 # 100))
      by (unfold Qdiv; reflexivity).
    change (inject_Z 25) with 25 in Hl. change (inject_Z 200) with 200 in Hu.
    lra.
  - intros H.
    assert (E : JS.lt (Qred (r + d)) 2 = false).
    { apply JSFacts.lt_Fin_false. rewrite Qred_correct. exact H. }
    unfold JS.Math_min. rewrite E. reflexivity.
  - intros H.
    assert (E : JS.lt 0.25 (Qred (r + d)) = false).
    { apply JSFacts.lt_Fin_false. rewrite Qred_correct. exact H. }
    assert (E' : JS.lt (Qred (r + d)) 2 = true).
    { apply JSFacts.lt_Fin. rewrite Qred_correct. lra. }
    unfold JS.Math_min. rewrite E'. unfold JS.Math_max. rewrite E.
    reflexivity.
Qed.

(** At rate 2, a change of +0.05 leaves the rate at 2. *)
Lemma changeSpeed_at_upper_bound :
  playbackRate (video rate_two_player) = JS.Fin 2
  /\ 2 <= 2 + 0.05
  /\ changeSpeed rate_two_player 0.05 = [Speed 2].
Proof.
  split; [reflexivity|]. split; [vm_compute; discriminate|].
  apply (changeSpeed_clamps_and_rounds rate_two_player 2 0.05 eq_refl).
  vm_compute; discriminate.
Defined.

(* ================================================================== *)
(** ** The input guard and the rules of the dispatcher *)
(* ================================================================== *)

Lemma keyCode_switch (A : Type) (k : Z) (a b c d e f g : A) :
  match k with
  | 32%Z => a | 37%Z => b | 39%Z => c | 38%Z => d | 40%Z => e | 13%Z => f
  | _ => g
  end =
  if (k =? 32)%Z then a else if (k =? 37)%Z then b
  else if (k =? 39)%Z then c else if (k =? 38)%Z then d
  else if (k =? 40)%Z then e else if (k =? 13)%Z then f else g.
Proof.
  destruct k as [|q|q]; try reflexivity.
  do 7 (try (destruct q as [q|q|]; try reflexivity)).
Qed.

(** The dispatcher on an eligible event: the guard is passed. *)
Lemma doHotKey_eligible (p : Player) (doc : Document) (e : KeyboardEvent) :
  eligible p doc = true ->
  doHotKey p doc e =
    if rule1 e then PreventDefault :: changeSpeed p 0.05
    else if rule2 e then PreventDefault :: changeSpeed p (-0.05)
    else if rule3 e then PreventDefault :: resetSpeed p
    else if rule4 e then PreventDefault :: takeScreenshot p
    else if (keyCode e =? 32)%Z then [PreventDefault; Toggle]
    else if (keyCode e =? 37)%Z then
      PreventDefault ::
      (if live (options p) then []
       else [Seek (currentTime (video p) - 5)%js None; SetAutoHide])
    else if (keyCode e =? 39)%Z then
      PreventDefault ::
      (if live (options p) then []
       else [Seek (currentTime (video p) + 5)%js None; SetAutoHide])
    else if (keyCode e =? 38)%Z then
      [PreventDefault; SetVolume (volume p + 0.1)%js]
    else if (keyCode e =? 40)%Z then
      [PreventDefault; SetVolume (volume p - 0.1)%js]
    else if (keyCode e =? 13)%Z then
      (if (location e =? 3)%Z then PreventDefault :: resetSpeed p else [])
    else handleLetterKeys p e (key e).
Proof.
  intros H. unfold eligible in H. cbv zeta in H.
  apply andb_true_iff in H. destruct H as [Hf Hg].
  apply negb_true_iff in Hg.
  unfold doHotKey. cbv zeta. rewrite Hf, Hg.
  rewrite keyCode_switch. reflexivity.
Qed.

Lemma doHotKey_not_eligible (p : Player) (doc : Document) (e : KeyboardEvent) :
  eligible p doc = false -> doHotKey p doc e = [].
Proof.
  intros H. unfold eligible in H. cbv zeta in H.
  unfold doHotKey. cbv zeta.
  destruct (focus p); [|reflexivity].
  simpl in H. apply negb_false_iff in H. rewrite H. reflexivity.
Qed.

(* ================================================================== *)
(** ** The guard and the Escape listener *)
(* ================================================================== *)

Lemma same_listener_eq (l l' : Listener) :
  same_listener l l' = true <-> l = l'.
Proof.
  destruct l as [i|i], l' as [j|j]; cbn;
    try (split; discriminate);
    rewrite Nat.eqb_eq; split; congruence.
Qed.

Lemma constructor_registers_cancelFullScreen (this : Instance) (p : Player)
  (doc : Document) :
  In (cancelFullScreenHandler this) (keydown (constructor this p doc)).
Proof.
  unfold constructor, addEventListener at 1. cbn [keydown].
  match goal with
  | |- context [existsb ?f ?l] => destruct (existsb f l) eqn:E
  end.
  - apply existsb_exists in E. destruct E as [l [Hin Hl]].
    apply same_listener_eq in Hl. subst l. exact Hin.
  - apply in_or_app. right. left. reflexivity.
Qed.

(** C7.  When the player does not have the focus, or the active element is
    an INPUT or a TEXTAREA (its tag name in any letter case), or its
    [contenteditable] attribute is the empty string or ["true"], [doHotKey]
    does nothing at all: no call, no assignment, no [preventDefault].  The
    Escape listener is registered all the same and still leaves the in-page
    full screen on Escape. *)
Theorem guard_blocks_every_rule (this : Instance) (p : Player)
  (doc : Document) (e : KeyboardEvent) :
  focus p = false
  \/ JS.toUpperCase (tagName (activeElement doc)) = "INPUT"
  \/ JS.toUpperCase (tagName (activeElement doc)) = "TEXTAREA"
  \/ contenteditable (activeElement doc) = Some ""
  \/ contenteditable (activeElement doc) = Some "true" ->
  doHotKey p doc e = []
  /\ In (cancelFullScreenHandler this) (keydown (constructor this p doc))
  /\ (keyCode e = 27%Z -> isFullScreen p web = true ->
      cancelFullScreen p doc e = [FullScreenCancel web]).
Proof.
  intros H. split; [|split].
  - apply doHotKey_not_eligible. unfold eligible. cbv zeta.
    destruct H as [H|[H|[H|[H|H]]]]; rewrite H.
    + reflexivity.
    + cbn. apply andb_false_r.
    + cbn. apply andb_false_r.
    + cbn [attr_is String.eqb]. rewrite !orb_true_r. apply andb_false_r.
    + replace (attr_is (Some "true") "true") with true by reflexivity.
      rewrite !orb_true_r. apply andb_false_r.
  - apply constructor_registers_cancelFullScreen.
  - intros Hk Hw. unfold cancelFullScreen. rewrite Hk, Hw. reflexivity.
Qed.

(** With an INPUT element active, the up arrow does nothing. *)
Lemma guard_blocks_in_input :
  JS.toUpperCase (tagName (activeElement input_document)) = "INPUT"
  /\ doHotKey example_player input_document plain_up = [].
Proof.
  split; [reflexivity|].
  apply (guard_blocks_every_rule first_instance example_player input_document
           plain_up).
  right. left. reflexivity.
Defined.

(** C6.  Whatever the [hotkey] option, the constructor registers the
    Escape listener of the instance.  When that listener is run on a
    keydown with key code 27, whatever the focus and the active element
    then: it calls [fullScreen.cancel('web')] when the player is in the
    in-page full screen and does nothing otherwise; it never requests a
    full screen and never cancels the ['browser'] one.  ([p] and [doc] are
    the player and the document at the construction, [p'] and [doc'] at
    the event.) *)
Theorem escape_cancels_web_fullscreen_only (this : Instance)
  (p p' : Player) (doc doc' : Document) (e : KeyboardEvent) :
  keyCode e = 27%Z ->
  In (cancelFullScreenHandler this) (keydown (constructor this p doc))
  /\ (isFullScreen p' web = true ->
      handler (cancelFullScreenHandler this) p' doc' e
      = [FullScreenCancel web])
  /\ (isFullScreen p' web = false ->
      handler (cancelFullScreenHandler this) p' doc' e = [])
  /\ (forall eff,
         In eff (handler (cancelFullScreenHandler this) p' doc' e) ->
         eff = FullScreenCancel web).
Proof.
  intros Hk. cbn [handler]. unfold cancelFullScreen. rewrite Hk.
  cbn [Z.eqb Pos.eqb].
  split; [apply constructor_registers_cancelFullScreen|].
  split; [intros H; rewrite H; reflexivity|].
  split; [intros H; rewrite H; reflexivity|].
  intros eff. destruct (isFullScreen p' web); cbn [In]; intuition congruence.
Qed.

(** Scenario E: the Escape listener that the constructor registered, run
    on Escape in the in-page full screen, leaves it; in the browser full
    screen alone it does nothing.  Neither player has the focus or the
    [hotkey] option, and an INPUT element is active. *)
Lemma escape_scenario :
  keyCode escape = 27%Z
  /\ In (cancelFullScreenHandler first_instance)
        (keydown (constructor first_instance web_fullscreen_player
                    input_document))
  /\ isFullScreen web_fullscreen_player web = true
  /\ handler (cancelFullScreenHandler first_instance) web_fullscreen_player
       (constructor first_instance web_fullscreen_player input_document)
       escape
     = [FullScreenCancel web]
  /\ isFullScreen browser_fullscreen_player web = false
  /\ handler (cancelFullScreenHandler first_instance)
       browser_fullscreen_player
       (constructor first_instance browser_fullscreen_player input_document)
       escape
     = [].
Proof.
  split; [reflexivity|]. split; [|split; [reflexivity|split; [|split]]].
  - apply (escape_cancels_web_fullscreen_only first_instance
             web_fullscreen_player web_fullscreen_player input_document
             input_document escape eq_refl).
  - apply (escape_cancels_web_fullscreen_only first_instance
             web_fullscreen_player web_fullscreen_player input_document
             (constructor first_instance web_fullscreen_player
                input_document) escape eq_refl).
    reflexivity.
  - reflexivity.
  - apply (escape_cancels_web_fullscreen_only first_instance
             browser_fullscreen_player browser_fullscreen_player
             input_document
             (constructor first_instance browser_fullscreen_player
                input_document) escape eq_refl).
    reflexivity.
Defined.

(* ================================================================== *)
(** ** Live streams *)
(* ================================================================== *)

Lemma no_seek_nil : no_seek [].
Proof. intros t s H. exact H. Qed.

Lemma no_seek_cons (eff : Effect) (l : list Effect) :
  (forall t s, eff <> Seek t s) -> no_seek l -> no_seek (eff :: l).
Proof.
  intros He Hl t s [H|H]; [exact (He t s H)|exact (Hl t s H)].
Qed.

Lemma no_seek_changeSpeed (p : Player) (d : JS.number) :
  no_seek (changeSpeed p d).
Proof. apply no_seek_cons; [discriminate|apply no_seek_nil]. Qed.

Lemma no_seek_resetSpeed (p : Player) : no_seek (resetSpeed p).
Proof. apply no_seek_cons; [discriminate|apply no_seek_nil]. Qed.

Lemma no_seek_takeScreenshot (p : Player) : no_seek (takeScreenshot p).
Proof.
  unfold takeScreenshot. cbv zeta.
  repeat (apply no_seek_cons; [discriminate|]). apply no_seek_nil.
Qed.

Create HintDb seek.
#[local] Hint Resolve no_seek_nil no_seek_changeSpeed no_seek_resetSpeed
  no_seek_takeScreenshot : seek.
#[local] Hint Extern 2 (no_seek (_ :: _)) =>
  apply no_seek_cons; [discriminate|] : seek.

Ltac split_ifs :=
  repeat match goal with
         | |- context [if ?c then _ else _] => destruct c eqn:?
         end.

Lemma no_seek_handleLetterKeys (p : Player) (e : KeyboardEvent) (k : string) :
  live (options p) = true -> no_seek (handleLetterKeys p e k).
Proof.
  intros Hl. unfold handleLetterKeys. cbv zeta. rewrite Hl. cbn [negb].
  split_ifs; auto with seek.
Qed.

(** C2.  While the [live] option is true no handler calls [player.seek],
    whatever the event: neither the arrow keys, nor [a], [d] or a digit. *)
Theorem live_never_seeks (p : Player) (doc : Document) (e : KeyboardEvent)
  (l : Listener) :
  live (options p) = true ->
  forall t s, ~ In (Seek t s) (handler l p doc e).
Proof.
  intros Hl. change (no_seek (handler l p doc e)).
  destruct l; cbn [handler].
  - destruct (eligible p doc) eqn:El.
    + rewrite (doHotKey_eligible p doc e El). rewrite Hl.
      assert (Hk := no_seek_handleLetterKeys p e (key e) Hl).
      split_ifs; auto with seek.
    + rewrite (doHotKey_not_eligible p doc e El). apply no_seek_nil.
  - unfold cancelFullScreen. split_ifs; auto with seek.
Qed.

(** On a live stream the left arrow calls no seek. *)
Lemma live_left_arrow_does_not_seek :
  live (options live_player) = true
  /\ forall t s,
       ~ In (Seek t s)
            (handler (doHotKeyHandler first_instance) live_player
               example_document plain_left).
Proof.
  split; [reflexivity|].
  apply (live_never_seeks live_player example_document plain_left
           (doHotKeyHandler first_instance) eq_refl).
Defined.

(* ================================================================== *)
(** ** Precedence of the modifier rules *)
(* ================================================================== *)

(** C1, as the code has it.  On an eligible event with Ctrl held, the
    rules are tried in the order 1, 2, 3: the key [x] changes the speed by
    +0.05 and the key [z] by -0.05, with or without Shift; Ctrl+Shift
    resets the speed to 1 for every other key. *)
Theorem modifier_rules_first_match (p : Player) (doc : Document)
  (e : KeyboardEvent) :
  eligible p doc = true ->
  ctrlKey e = true ->
  (JS.toLowerCase (key e) = "x" ->
   doHotKey p doc e = PreventDefault :: changeSpeed p 0.05)
  /\ (JS.toLowerCase (key e) = "z" ->
      doHotKey p doc e = PreventDefault :: changeSpeed p (-0.05))
  /\ (shiftKey e = true ->
      JS.toLowerCase (key e) <> "x" -> JS.toLowerCase (key e) <> "z" ->
      doHotKey p doc e = [PreventDefault; Speed 1]).
Proof.
  intros El Hc. rewrite (doHotKey_eligible p doc e El).
  unfold rule1, rule2, rule3. rewrite Hc. cbn [andb].
  split; [|split].
  - intros H. rewrite H. reflexivity.
  - intros H. rewrite H. reflexivity.
  - intros Hs Hx Hz. rewrite Hs.
    apply String.eqb_neq in Hx, Hz. rewrite Hx, Hz. reflexivity.
Qed.

(** Ctrl+Shift+X is handled by the first rule; Ctrl+Shift+Enter by the
    third. *)
Lemma modifier_rules_on_examples :
  eligible example_player example_document = true
  /\ ctrlKey ctrl_shift_x = true
  /\ JS.toLowerCase (key ctrl_shift_x) = "x"
  /\ doHotKey example_player example_document ctrl_shift_x
     = PreventDefault :: changeSpeed example_player 0.05
  /\ doHotKey example_player example_document ctrl_shift_enter
     = [PreventDefault; Speed 1].
Proof.
  split; [reflexivity|]. split; [reflexivity|]. split; [reflexivity|]. split.
  - apply (modifier_rules_first_match example_player example_document
             ctrl_shift_x eq_refl eq_refl).
    reflexivity.
  - apply (modifier_rules_first_match example_player example_document
             ctrl_shift_enter eq_refl eq_refl).
    + reflexivity.
    + discriminate.
    + discriminate.
Defined.

(** Ctrl+Shift+X at rate 1 sets the rate to 1.05: it does not reset it. *)
Lemma ctrl_shift_x_is_not_reset :
  eligible example_player example_document = true
  /\ ctrlKey ctrl_shift_x = true /\ shiftKey ctrl_shift_x = true
  /\ JS.toLowerCase (key ctrl_shift_x) = "x"
  /\ doHotKey example_player example_document ctrl_shift_x
     = [PreventDefault; Speed (21 # 20)]
  /\ doHotKey example_player example_document ctrl_shift_x
     <> PreventDefault :: resetSpeed example_player.
Proof.
  repeat split; try reflexivity.
  intros H. vm_compute in H. discriminate H.
Qed.

(* ================================================================== *)
(** ** Enter *)
(* ================================================================== *)

(** C10, as the code has it.  An eligible keydown with key code 13 away
    from the numeric keypad, to which none of the four modifier rules
    applies, does nothing: no call, no [preventDefault], and the letter
    rules are not tried, whatever the key label.  For the label ["Enter"]
    the only modifier rule that can apply is Ctrl+Shift. *)
Theorem enter_off_keypad_is_noop (p : Player) (doc : Document)
  (e : KeyboardEvent) :
  eligible p doc = true ->
  keyCode e = 13%Z ->
  location e <> 3%Z ->
  (modifier_rule e = false -> doHotKey p doc e = [])
  /\ (key e = "Enter" -> ctrlKey e && shiftKey e = false ->
      doHotKey p doc e = []).
Proof.
  intros El Hk Hloc.
  assert (M : modifier_rule e = false -> doHotKey p doc e = []).
  { intros Hm. rewrite (doHotKey_eligible p doc e El).
    unfold modifier_rule in Hm.
    apply orb_false_iff in Hm. destruct Hm as [Hm H4].
    apply orb_false_iff in Hm. destruct Hm as [Hm H3].
    apply orb_false_iff in Hm. destruct Hm as [H1 H2].
    rewrite H1, H2, H3, H4, Hk. cbn [Z.eqb Pos.eqb].
    apply Z.eqb_neq in Hloc. rewrite Hloc. reflexivity. }
  split; [exact M|].
  intros He Hcs. apply M. unfold modifier_rule, rule1, rule2, rule3, rule4.
  rewrite He, Hcs. cbn. rewrite !andb_false_r. reflexivity.
Qed.

(** Enter on the main keyboard, without modifiers, does nothing; nor does
    an event with the code of Enter and the label [m], which the letter
    rules would take for the mute key. *)
Lemma plain_enter_is_noop :
  eligible example_player example_document = true
  /\ keyCode plain_enter = 13%Z
  /\ location plain_enter <> 3%Z
  /\ modifier_rule plain_enter = false
  /\ doHotKey example_player example_document plain_enter = []
  /\ doHotKey example_player example_document enter_labelled_m = []
  /\ handleLetterKeys example_player enter_labelled_m "m"
     = [PreventDefault; SetMuted true; Notice "Muted"].
Proof.
  split; [reflexivity|]. split; [reflexivity|]. split; [discriminate|].
  split; [reflexivity|]. split; [|split; [|reflexivity]].
  - apply (proj1 (enter_off_keypad_is_noop example_player example_document
                    plain_enter eq_refl eq_refl ltac:(discriminate))).
    reflexivity.
  - apply (proj1 (enter_off_keypad_is_noop example_player example_document
                    enter_labelled_m eq_refl eq_refl ltac:(discriminate))).
    reflexivity.
Defined.

(** Ctrl+Shift+Enter on the main keyboard resets the speed. *)
Lemma ctrl_shift_enter_resets_speed :
  eligible example_player example_document = true
  /\ keyCode ctrl_shift_enter = 13%Z
  /\ location ctrl_shift_enter <> 3%Z
  /\ doHotKey example_player example_document ctrl_shift_enter
     = [PreventDefault; Speed 1].
Proof. repeat split. discriminate. Qed.

(* ================================================================== *)
(** ** Volume *)
(* ================================================================== *)

(** C9, as the code has it.  On an eligible up or down arrow to which no
    modifier rule applies, the new volume passed to [player.volume] is the
    current one plus or minus 0.1, whatever the current volume: nothing is
    clamped here. *)
Theorem arrows_change_volume_unclamped (p : Player) (doc : Document)
  (e : KeyboardEvent) (v : Q) :
  eligible p doc = true ->
  modifier_rule e = false ->
  volume p = JS.Fin v ->
  (keyCode e = 38%Z ->
   exists x : Q, doHotKey p doc e = [PreventDefault; SetVolume x]
                 /\ x == v + 0.1)
  /\ (keyCode e = 40%Z ->
      exists x : Q, doHotKey p doc e = [PreventDefault; SetVolume x]
                    /\ x == v - 0.1).
Proof.
  intros El Hm Hv. rewrite (doHotKey_eligible p doc e El).
  unfold modifier_rule in Hm.
  apply orb_false_iff in Hm. destruct Hm as [Hm H4].
  apply orb_false_iff in Hm. destruct Hm as [Hm H3].
  apply orb_false_iff in Hm. destruct Hm as [H1 H2].
  rewrite H1, H2, H3, H4, Hv.
  split; intros Hk; rewrite Hk; cbn [Z.eqb Pos.eqb JS.add JS.sub];
    eexists; (split; [reflexivity|apply Qred_correct]).
Qed.

(** At volume 1 the up arrow asks for the volume 1.1. *)
Lemma up_arrow_at_full_volume :
  eligible example_player example_document = true
  /\ modifier_rule plain_up = false
  /\ volume example_player = JS.Fin 1
  /\ keyCode plain_up = 38%Z
  /\ exists x : Q,
       doHotKey example_player example_document plain_up
       = [PreventDefault; SetVolume x]
       /\ x == 1 + 0.1.
Proof.
  split; [reflexivity|]. split; [reflexivity|]. split; [reflexivity|].
  split; [reflexivity|].
  apply (arrows_change_volume_unclamped example_player example_document
           plain_up 1 eq_refl eq_refl eq_refl).
  reflexivity.
Defined.

(** Ctrl+Shift+ArrowUp resets the speed and leaves the volume alone. *)
Lemma ctrl_shift_up_sets_no_volume :
  eligible example_player example_document = true
  /\ keyCode ctrl_shift_up = 38%Z
  /\ doHotKey example_player example_document ctrl_shift_up
     = [PreventDefault; Speed 1]
  /\ forall x, ~ In (SetVolume x)
                 (doHotKey example_player example_document ctrl_shift_up).
Proof.
  repeat split. intros x H. vm_compute in H. intuition discriminate.
Qed.

(* ================================================================== *)
(** ** Seeking to a percentage *)
(* ================================================================== *)

Lemma toString_integer (n : Z) :
  JS.toString (JS.Fin (inject_Z n)) = JS.Z_to_string n.
Proof.
  unfold JS.toString. rewrite Qfloor_Z.
  rewrite (Qeq_eq_bool (inject_Z n) (inject_Z n) (Qeq_refl _)). reflexivity.
Qed.

Lemma digit_cases (k : Z) :
  (0 <= k <= 9)%Z ->
  (k = 0 \/ k = 1 \/ k = 2 \/ k = 3 \/ k = 4 \/ k = 5 \/ k = 6 \/ k = 7
   \/ k = 8 \/ k = 9)%Z.
Proof. lia. Qed.

Ltac each_digit k H :=
  destruct (digit_cases k H) as [?|[?|[?|[?|[?|[?|[?|[?|[?|?]]]]]]]]];
  subst k.

Lemma digit_label_no_modifier_letter (k : Z) :
  (0 <= k <= 9)%Z ->
  (JS.toLowerCase (digit_label k) =? "x")%string = false
  /\ (JS.toLowerCase (digit_label k) =? "z")%string = false
  /\ (JS.toLowerCase (digit_label k) =? "s")%string = false.
Proof. intros H. each_digit k H; repeat split. Qed.

Lemma handleLetterKeys_digit (p : Player) (e : KeyboardEvent) (k : Z) :
  (0 <= k <= 9)%Z ->
  handleLetterKeys p e (digit_label k) =
    PreventDefault ::
    (if negb (live (options p))
     then seekToPercent p (JS.Fin (inject_Z (k * 10)))
     else []).
Proof. intros H. each_digit k H; reflexivity. Qed.

Lemma seekToPercent_known (p : Player) (n : Z) (D : Q) :
  duration (video p) = JS.Fin D -> ~ D == 0 ->
  seekToPercent p (JS.Fin (inject_Z n)) =
    [Seek (JS.Fin (Qred (Qred (inject_Z n / 100) * D))) (Some true);
     Notice ("Seek: " ++ JS.Z_to_string n ++ "%")].
Proof.
  intros Hd HD. unfold seekToPercent. rewrite Hd.
  cbn [JS.truthy]. rewrite (JSFacts.Qzero_false D HD). cbn [negb].
  rewrite toString_integer. reflexivity.
Qed.

Lemma percent_time (n : Z) (D : Q) :
  let x := Qred (Qred (inject_Z n / 100) * D) in
  x == D * inject_Z n / 100
  /\ ((0 <= n <= 100)%Z -> 0 <= D -> 0 <= x <= D).
Proof.
  intros x. unfold x. rewrite !Qred_correct.
  set (c := inject_Z n).
  setoid_replace (c / 100 * D) with (D * (c * (1 # 100)))
    by (unfold Qdiv; change (/ 100) with (1 # 100); ring).
  setoid_replace (D * c / 100) with (D * (c * (1 # 100)))
    by (unfold Qdiv; change (/ 100) with (1 # 100); ring).
  split; [reflexivity|].
  intros Hn HD.
  assert (B : 0 <= c <= 100).
  { unfold c. change 0 with (inject_Z 0). change 100 with (inject_Z 100).
    rewrite <- !Zle_Qle. exact Hn. }
  clearbody c. split; nra.
Qed.

Lemma not_a_switch_code (A : Type) (c : Z) (a b cc d e f g : A) :
  c <> 32%Z -> c <> 37%Z -> c <> 39%Z -> c <> 38%Z -> c <> 40%Z ->
  c <> 13%Z ->
  (if (c =? 32)%Z then a else if (c =? 37)%Z then b
   else if (c =? 39)%Z then cc else if (c =? 38)%Z then d
   else if (c =? 40)%Z then e else if (c =? 13)%Z then f else g) = g.
Proof.
  intros H1 H2 H3 H4 H5 H6.
  apply Z.eqb_neq in H1, H2, H3, H4, H5, H6.
  rewrite H1, H2, H3, H4, H5, H6. reflexivity.
Qed.

(** C5, as the code has it.  On an eligible keydown of the digit [k], with
    Ctrl and Shift not both held and [live] false: when the duration [D] is
    known, the dispatcher calls [seek] with [D * (k*10) / 100], a time
    between 0 and [D], and then gives the notice "Seek: p%" for [p = k*10];
    when the duration is unknown ([NaN], or zero) it calls neither. *)
Theorem digit_key_seeks_to_percent (p : Player) (doc : Document)
  (e : KeyboardEvent) (k : Z) :
  eligible p doc = true ->
  (0 <= k <= 9)%Z ->
  key e = digit_label k ->
  (keyCode e = 48 + k \/ keyCode e = 96 + k)%Z ->
  ctrlKey e && shiftKey e = false ->
  live (options p) = false ->
  (forall D : Q,
      duration (video p) = JS.Fin D -> 0 < D ->
      exists x : Q,
        doHotKey p doc e =
          [PreventDefault; Seek x (Some true);
           Notice ("Seek: " ++ JS.Z_to_string (k * 10) ++ "%")]
        /\ x == D * inject_Z (k * 10) / 100
        /\ 0 <= x <= D)
  /\ (JS.truthy (duration (video p)) = false ->
      doHotKey p doc e = [PreventDefault])
  /\ (k = 7%Z -> duration (video p) = JS.Fin 200 ->
      doHotKey p doc e =
        [PreventDefault; Seek 140 (Some true); Notice "Seek: 70%"]).
Proof.
  intros El Hk Hkey Hcode Hcs Hlive.
  assert (R : doHotKey p doc e =
              PreventDefault :: seekToPercent p (JS.Fin (inject_Z (k * 10)))).
  { rewrite (doHotKey_eligible p doc e El).
    unfold rule1, rule2, rule3, rule4. rewrite Hkey, Hcs.
    destruct (digit_label_no_modifier_letter k Hk) as [Hx [Hz Hs]].
    rewrite Hx, Hz, Hs, !andb_false_r.
    rewrite not_a_switch_code by lia.
    rewrite (handleLetterKeys_digit p e k Hk), Hlive. reflexivity. }
  rewrite R. split; [|split].
  - intros D Hd HD.
    rewrite (seekToPercent_known p (k * 10) D Hd) by lra.
    eexists. split; [reflexivity|].
    destruct (percent_time (k * 10) D) as [E B].
    split; [exact E|apply B; [lia|lra]].
  - intros Hd. unfold seekToPercent. rewrite Hd. reflexivity.
  - intros E7 Hd. subst k.
    rewrite (seekToPercent_known p (7 * 10) 200 Hd) by lra. reflexivity.
Qed.

(** Scenario D: the key 7 on a video of 200 seconds. *)
Lemma key_7_seeks_to_70_percent :
  eligible long_video_player example_document = true
  /\ (0 <= 7 <= 9)%Z
  /\ key plain_7 = digit_label 7
  /\ keyCode plain_7 = (48 + 7)%Z
  /\ ctrlKey plain_7 && shiftKey plain_7 = false
  /\ live (options long_video_player) = false
  /\ duration (video long_video_player) = JS.Fin 200
  /\ doHotKey long_video_player example_document plain_7
     = [PreventDefault; Seek 140 (Some true); Notice "Seek: 70%"].
Proof.
  split; [reflexivity|]. split; [split; discriminate|].
  split; [reflexivity|]. split; [reflexivity|]. split; [reflexivity|].
  split; [reflexivity|]. split; [reflexivity|].
  apply (digit_key_seeks_to_percent long_video_player example_document
           plain_7 7 eq_refl).
  - split; discriminate.
  - reflexivity.
  - left. reflexivity.
  - reflexivity.
  - reflexivity.
  - reflexivity.
  - reflexivity.
Defined.

(** Ctrl+Shift+7 resets the speed: no seek, no notice. *)
Lemma ctrl_shift_7_does_not_seek :
  eligible example_player example_document = true
  /\ key ctrl_shift_7 = digit_label 7
  /\ keyCode ctrl_shift_7 = (48 + 7)%Z
  /\ live (options example_player) = false
  /\ duration (video example_player) = JS.Fin 100
  /\ doHotKey example_player example_document ctrl_shift_7
     = [PreventDefault; Speed 1].
Proof. repeat split. Qed.

(* ================================================================== *)
(** ** Bounds of the seek time *)
(* ================================================================== *)

Lemma digit_key_label (s : string) :
  existsb (String.eqb s) digit_keys = true ->
  exists k : Z, (0 <= k <= 9)%Z /\ s = digit_label k.
Proof.
  intros H. apply existsb_exists in H. destruct H as [d [Hin Hd]].
  apply String.eqb_eq in Hd. subst d.
  unfold digit_keys in Hin. cbn [In] in Hin.
  destruct Hin as [H|[H|[H|[H|[H|[H|[H|[H|[H|[H|[]]]]]]]]]]]; subst s.
  - exists 0%Z. split; [lia|reflexivity].
  - exists 1%Z. split; [lia|reflexivity].
  - exists 2%Z. split; [lia|reflexivity].
  - exists 3%Z. split; [lia|reflexivity].
  - exists 4%Z. split; [lia|reflexivity].
  - exists 5%Z. split; [lia|reflexivity].
  - exists 6%Z. split; [lia|reflexivity].
  - exists 7%Z. split; [lia|reflexivity].
  - exists 8%Z. split; [lia|reflexivity].
  - exists 9%Z. split; [lia|reflexivity].
Qed.

Lemma parseInt_digit_label (k : Z) :
  (0 <= k <= 9)%Z ->
  (JS.parseInt (digit_label k) * 10)%js = JS.Fin (inject_Z (k * 10)).
Proof. intros H. each_digit k H; reflexivity. Qed.

(** Where a seek of [doHotKey] comes from, the arrow keys apart. *)
Lemma seek_from_letter_rule (p : Player) (doc : Document) (e : KeyboardEvent)
  (x : JS.number) (s : option bool) :
  keyCode e <> 37%Z -> keyCode e <> 39%Z ->
  In (Seek x s) (doHotKey p doc e) ->
  In (Seek x s) (handleLetterKeys p e (key e)).
Proof.
  intros H37 H39 H.
  destruct (eligible p doc) eqn:El.
  - rewrite (doHotKey_eligible p doc e El) in H.
    apply Z.eqb_neq in H37, H39. rewrite H37, H39 in H.
    revert H. split_ifs; intros H; try exact H; exfalso; revert H;
      match goal with |- In _ ?l -> False => cut (no_seek l) end;
      try (intros N; apply N); auto with seek.
  - rewrite (doHotKey_not_eligible p doc e El) in H. destruct H.
Qed.

(** The seeks of the letter rules on a player whose time is [t] and whose
    duration is [dur]: back 5 seconds or to 0 (key [a]), forward 5 seconds
    or to one second before the end (key [d]), or to a percentage. *)
Lemma handleLetterKeys_seek (p : Player) (e : KeyboardEvent) (k : string)
  (t : Q) (x : JS.number) (s : option bool) :
  currentTime (video p) = JS.Fin t ->
  In (Seek x s) (handleLetterKeys p e k) ->
  (x = JS.Fin (Qred (t - 5)) /\ 5 <= t)
  \/ x = JS.Fin 0
  \/ (x = JS.Fin (Qred (t + 5))
      /\ JS.truthy (duration (video p)) = true
      /\ (JS.Fin (Qred (t + 5)) < duration (video p))%js = true)
  \/ (x = (duration (video p) - 1)%js
      /\ JS.truthy (duration (video p)) = true
      /\ (JS.Fin (Qred (t + 5)) < duration (video p))%js = false)
  \/ (exists n : Z, (0 <= n <= 9)%Z
                    /\ [Seek x s]
                       = firstn 1 (seekToPercent p (JS.Fin (inject_Z (n * 10))))).
Proof.
  intros Ht. unfold handleLetterKeys. cbv zeta. rewrite Ht.
  cbn [JS.add JS.sub]. unfold JS.fin.
  destruct (JS.toLowerCase k =? "a")%string.
  { destruct (live (options p)); [cbn; intuition discriminate|].
    destruct (JS.Fin t >= 5)%js eqn:G.
    - apply JSFacts.ge_Fin in G. cbn [In app].
      intros [H|[H|[H|[]]]]; try discriminate H.
      injection H as Hx _. left. split; [symmetry; exact Hx|exact G].
    - cbn [In app]. intros [H|[H|[H|[]]]]; try discriminate H.
      injection H as Hx _. right. left. symmetry. exact Hx. }
  destruct (JS.toLowerCase k =? "d")%string.
  { destruct (live (options p)); [cbn; intuition discriminate|].
    destruct (JS.truthy (duration (video p))) eqn:T; cbn [andb].
    - destruct (JS.Fin (Qred (t + 5)) < duration (video p))%js eqn:L.
      + cbn [In app]. intros [H|[H|[H|[]]]]; try discriminate H.
        injection H as Hx _. right. right. left. auto.
      + cbn [In app]. intros [H|[H|[H|[]]]]; try discriminate H.
        injection H as Hx _. right. right. right. left. auto.
    - cbn [In app]. intros [H|[H|[]]]; discriminate H. }
  destruct (JS.toLowerCase k =? "f")%string.
  { destruct (isFullScreen p browser); cbn; intuition discriminate. }
  destruct (JS.toLowerCase k =? "w")%string.
  { destruct (isFullScreen p web); cbn; intuition discriminate. }
  destruct (JS.toLowerCase k =? "m")%string.
  { destruct (muted (video p)); cbn; intuition discriminate. }
  destruct ((JS.toLowerCase k =? "+")%string || (JS.toLowerCase k =? "=")%string).
  { intros H. exfalso. revert H.
    apply (no_seek_cons PreventDefault); [discriminate|auto with seek]. }
  destruct (JS.toLowerCase k =? "-")%string.
  { intros H. exfalso. revert H.
    apply (no_seek_cons PreventDefault); [discriminate|auto with seek]. }
  destruct (existsb (String.eqb (JS.toLowerCase k)) digit_keys) eqn:Dg;
    [|intros []].
  destruct (digit_key_label _ Dg) as [n [Hn En]]. rewrite En.
  rewrite (parseInt_digit_label n Hn).
  destruct (live (options p)); cbn [negb]; [cbn; intuition discriminate|].
  intros [H|H]; [discriminate H|].
  right. right. right. right. exists n. split; [exact Hn|].
  unfold seekToPercent in *.
  destruct (JS.truthy (duration (video p))); [|destruct H].
  cbn [In] in H. destruct H as [H|[H|[]]]; [|discriminate H].
  cbn [firstn]. rewrite H. reflexivity.
Qed.

(** The left arrow at time 3 seeks to -2; the right arrow at time 97 of a
    video of 100 seconds seeks to 102. *)
Lemma arrows_seek_out_of_bounds :
  eligible example_player example_document = true
  /\ doHotKey example_player example_document plain_left
     = [PreventDefault; Seek (-2) None; SetAutoHide]
  /\ eligible near_end_player example_document = true
  /\ duration (video near_end_player) = JS.Fin 100
  /\ doHotKey near_end_player example_document plain_right
     = [PreventDefault; Seek 102 None; SetAutoHide]
  /\ -2 < 0 /\ 100 < 102.
Proof. repeat split. Qed.

(** Scenario B: the key [a] at 3 seconds seeks to 0. *)
Example a_key_near_start :
  doHotKey example_player example_document plain_a
  = [PreventDefault; Seek 0 None; SetAutoHide].
Proof. reflexivity. Qed.

(** On a video shorter than one second the key [d] passes a negative
    time, [duration - 1]. *)
Example d_key_on_short_video :
  doHotKey short_video_player example_document plain_d
  = [PreventDefault; Seek (-1 # 2) None; SetAutoHide].
Proof. reflexivity. Qed.

(* ================================================================== *)
(** ** The name of a screenshot *)
(* ================================================================== *)

Lemma Z_to_string_long (p : positive) :
  (10 <= Z.pos p)%Z ->
  exists a b s, JS.Z_to_string (Z.pos p) = String a (String b s).
Proof.
  intros H. unfold JS.Z_to_string. cbn [Z.to_int NilZero.string_of_int].
  assert (E := DecimalPos.Unsigned.of_to p).
  destruct (Pos.to_uint p) as [|u|u|u|u|u|u|u|u|u|u] eqn:Eu;
    [cbn in E; discriminate E|..];
    (destruct u;
     [cbn in E; first [discriminate E | injection E as E; exfalso; lia]
     | cbn [NilZero.string_of_uint NilEmpty.string_of_uint];
       do 3 eexists; reflexivity ..]).
Qed.

Lemma padStart_two_digits (n : Z) :
  (0 <= n)%Z -> JS.padStart 2 "0" (JS.Z_to_string n) = two_digits n.
Proof.
  intros H. unfold two_digits. destruct (Z.ltb_spec n 10) as [L|L].
  - assert (C : (0 <= n <= 9)%Z) by lia.
    each_digit n C; reflexivity.
  - destruct n as [|p|p]; try lia.
    destruct (Z_to_string_long p L) as [a [b [s E]]]. rewrite E.
    reflexivity.
Qed.

Lemma Qdiv_nonneg (t m : Q) : 0 <= t -> 0 < m -> 0 <= t / m.
Proof.
  intros Ht Hm. apply Qle_shift_div_l; [exact Hm|]. lra.
Qed.

Lemma Qmod_nonneg (t m : Q) : 0 < m -> 0 <= Qmod t m.
Proof.
  intros Hm. unfold Qmod.
  assert (F := Qfloor_le (t / m)).
  assert (E : m * (t / m) == t) by (field; lra).
  assert (M : m * inject_Z (Qfloor (t / m)) <= m * (t / m)).
  { apply Qmult_le_l; assumption. }
  rewrite E in M. lra.
Qed.

Lemma Qfloor_nonneg (q : Q) : 0 <= q -> (0 <= Qfloor q)%Z.
Proof. intros H. change 0%Z with (Qfloor 0). now apply Qfloor_resp_le. Qed.

Lemma floor_div (t m : Q) :
  ~ m == 0 ->
  JS.Math_floor (JS.Fin t / JS.Fin m)%js = JS.Fin (inject_Z (Qfloor (t / m))).
Proof.
  intros Hm. cbn [JS.div]. rewrite (JSFacts.Qzero_false m Hm).
  unfold JS.fin. cbn [JS.Math_floor]. now rewrite JSFacts.Qfloor_Qred.
Qed.

Lemma rem_nonneg (t m : Q) :
  0 <= t -> 0 < m -> JS.rem (JS.Fin t) (JS.Fin m) = JS.Fin (Qred (Qmod t m)).
Proof.
  intros Ht Hm. cbn [JS.rem]. rewrite JSFacts.Qzero_false by lra.
  rewrite JSFacts.Qtrunc_nonneg by (apply Qdiv_nonneg; assumption).
  reflexivity.
Qed.

(** C8.  For every time [t >= 0], [takeScreenshot] draws the frame,
    downloads it as [screenshot_HH-MM-SS.png] and gives a notice with the
    same HH-MM-SS, where HH = floor (t / 3600), MM = floor ((t mod 3600) /
    60) and SS = floor (t mod 60), each on at least two digits; at 125.4
    seconds the file is [screenshot_00-02-05.png]. *)
Theorem screenshot_is_named_after_time (p : Player) (t : Q) :
  currentTime (video p) = JS.Fin t ->
  0 <= t ->
  takeScreenshot p =
    [DrawImage (videoWidth (video p)) (videoHeight (video p));
     ToBlob ("screenshot_" ++ timestamp t ++ ".png");
     Notice ("Screenshot: " ++ timestamp t)]
  /\ "screenshot_" ++ timestamp 125.4 ++ ".png" = "screenshot_00-02-05.png".
Proof.
  intros Ht Hpos. split; [|reflexivity].
  unfold takeScreenshot. cbv zeta. rewrite Ht.
  rewrite (rem_nonneg t 3600 Hpos) by lra.
  rewrite (rem_nonneg t 60 Hpos) by lra.
  rewrite !floor_div by lra.
  cbn [JS.Math_floor]. rewrite !toString_integer.
  rewrite JSFacts.Qfloor_Qred.
  rewrite (Qfloor_comp (Qred (Qmod t 3600) / 60) (Qmod t 3600 / 60))
    by (rewrite Qred_correct; reflexivity).
  rewrite !padStart_two_digits; [reflexivity|..].
  - apply Qfloor_nonneg, Qmod_nonneg. lra.
  - apply Qfloor_nonneg, Qdiv_nonneg; [apply Qmod_nonneg|]; lra.
  - apply Qfloor_nonneg, Qdiv_nonneg; [exact Hpos|lra].
Qed.

(** Scenario F: a capture at 125.4 seconds. *)
Lemma screenshot_at_125_4 :
  currentTime (video capture_player) = JS.Fin 125.4
  /\ 0 <= 125.4
  /\ takeScreenshot capture_player =
       [DrawImage 1280 720;
        ToBlob ("screenshot_" ++ timestamp 125.4 ++ ".png");
        Notice ("Screenshot: " ++ timestamp 125.4)]
  /\ timestamp 125.4 = "00-02-05".
Proof.
  split; [reflexivity|]. split; [vm_compute; discriminate|].
  split; [|reflexivity].
  apply (screenshot_is_named_after_time capture_player 125.4 eq_refl).
  vm_compute; discriminate.
Defined.

(* ================================================================== *)
(** ** The dispatcher as a whole *)
(* ================================================================== *)

Lemma eligible_spec (p : Player) (doc : Document) :
  eligible p doc = true <->
  focus p = true
  /\ JS.toUpperCase (tagName (activeElement doc)) <> "INPUT"
  /\ JS.toUpperCase (tagName (activeElement doc)) <> "TEXTAREA"
  /\ contenteditable (activeElement doc) <> Some ""
  /\ contenteditable (activeElement doc) <> Some "true".
Proof.
  unfold eligible. cbv zeta.
  rewrite andb_true_iff, negb_true_iff, !orb_false_iff.
  rewrite !String.eqb_neq.
  assert (A : forall a t, attr_is a t = false <-> a <> Some t).
  { intros [s|] t; cbn.
    - rewrite String.eqb_neq. split; congruence.
    - split; [discriminate|reflexivity]. }
  rewrite !A. tauto.
Qed.

Lemma modifier_rule_false (e : KeyboardEvent) :
  modifier_rule e = false ->
  rule1 e = false /\ rule2 e = false /\ rule3 e = false /\ rule4 e = false.
Proof.
  unfold modifier_rule. rewrite !orb_false_iff. tauto.
Qed.

Lemma not_switch_code (c : Z) :
  ~ In c switch_codes ->
  c <> 32%Z /\ c <> 37%Z /\ c <> 39%Z /\ c <> 38%Z /\ c <> 40%Z /\ c <> 13%Z.
Proof. unfold switch_codes. cbn [In]. intuition congruence. Qed.

(** An eligible event that no modifier rule takes goes through the switch
    on the key code. *)
Lemma doHotKey_unmodified (p : Player) (doc : Document) (e : KeyboardEvent) :
  eligible p doc = true -> modifier_rule e = false ->
  doHotKey p doc e =
    if (keyCode e =? 32)%Z then [PreventDefault; Toggle]
    else if (keyCode e =? 37)%Z then
      PreventDefault ::
      (if live (options p) then []
       else [Seek (currentTime (video p) - 5)%js None; SetAutoHide])
    else if (keyCode e =? 39)%Z then
      PreventDefault ::
      (if live (options p) then []
       else [Seek (currentTime (video p) + 5)%js None; SetAutoHide])
    else if (keyCode e =? 38)%Z then
      [PreventDefault; SetVolume (volume p + 0.1)%js]
    else if (keyCode e =? 40)%Z then
      [PreventDefault; SetVolume (volume p - 0.1)%js]
    else if (keyCode e =? 13)%Z then
      (if (location e =? 3)%Z then PreventDefault :: resetSpeed p else [])
    else handleLetterKeys p e (key e).
Proof.
  intros El Hm. rewrite (doHotKey_eligible p doc e El).
  destruct (modifier_rule_false e Hm) as [H1 [H2 [H3 H4]]].
  rewrite H1, H2, H3, H4. reflexivity.
Qed.

Lemma doHotKey_letter (p : Player) (doc : Document) (e : KeyboardEvent) :
  eligible p doc = true -> modifier_rule e = false ->
  ~ In (keyCode e) switch_codes ->
  doHotKey p doc e = handleLetterKeys p e (key e).
Proof.
  intros El Hm Hc. rewrite (doHotKey_unmodified p doc e El Hm).
  destruct (not_switch_code _ Hc) as [H1 [H2 [H3 [H4 [H5 H6]]]]].
  apply not_a_switch_code; assumption.
Qed.

(** *** The letter case of the key label *)

Lemma lower_upper_ascii (c : ascii) :
  JS.lower_ascii (JS.upper_ascii c) = JS.lower_ascii c.
Proof.
  destruct c as [[] [] [] [] [] [] [] []]; reflexivity.
Qed.

Lemma lower_lower_ascii (c : ascii) :
  JS.lower_ascii (JS.lower_ascii c) = JS.lower_ascii c.
Proof.
  destruct c as [[] [] [] [] [] [] [] []]; reflexivity.
Qed.

Lemma toLowerCase_toUpperCase (s : string) :
  JS.toLowerCase (JS.toUpperCase s) = JS.toLowerCase s.
Proof.
  induction s as [|c s IH]; [reflexivity|].
  cbn. rewrite lower_upper_ascii. f_equal. exact IH.
Qed.

Lemma toLowerCase_idempotent (s : string) :
  JS.toLowerCase (JS.toLowerCase s) = JS.toLowerCase s.
Proof.
  induction s as [|c s IH]; [reflexivity|].
  cbn. rewrite lower_lower_ascii. f_equal. exact IH.
Qed.

Lemma handleLetterKeys_label (p : Player) (e e' : KeyboardEvent)
  (k k' : string) :
  JS.toLowerCase k = JS.toLowerCase k' ->
  handleLetterKeys p e k = handleLetterKeys p e' k'.
Proof.
  intros H. unfold handleLetterKeys. cbv zeta. rewrite H. reflexivity.
Qed.

Lemma doHotKey_label (p : Player) (doc : Document) (e : KeyboardEvent)
  (k : string) :
  JS.toLowerCase k = JS.toLowerCase (key e) ->
  doHotKey p doc (with_key e k) = doHotKey p doc e.
Proof.
  intros H. unfold doHotKey. cbv zeta. cbn [with_key key keyCode ctrlKey
    shiftKey location].
  rewrite H. rewrite (handleLetterKeys_label p (with_key e k) e k (key e) H).
  reflexivity.
Qed.

(** X1.  The dispatcher looks at the key label in lower case only: the
    same event with its label in upper case, or in lower case, has the same
    effects.  (The case mapping is the ASCII one.) *)
Theorem key_label_case_is_ignored (p : Player) (doc : Document)
  (e : KeyboardEvent) :
  doHotKey p doc (with_key e (JS.toUpperCase (key e))) = doHotKey p doc e
  /\ doHotKey p doc (with_key e (JS.toLowerCase (key e))) = doHotKey p doc e.
Proof.
  split; apply doHotKey_label.
  - apply toLowerCase_toUpperCase.
  - apply toLowerCase_idempotent.
Qed.

(** *** The cases of the letter switch *)

Lemma not_letter_key (s : string) :
  (s =? "a")%string = false -> (s =? "d")%string = false ->
  (s =? "f")%string = false -> (s =? "w")%string = false ->
  (s =? "m")%string = false ->
  (s =? "+")%string || (s =? "=")%string = false ->
  (s =? "-")%string = false ->
  existsb (String.eqb s) digit_keys = false ->
  ~ In s letter_keys.
Proof.
  intros Ha Hd Hf Hw Hm Hp Hs Hg Hin.
  apply orb_false_iff in Hp. destruct Hp as [Hp He].
  apply String.eqb_neq in Ha, Hd, Hf, Hw, Hm, Hp, He, Hs.
  unfold letter_keys in Hin. apply in_app_or in Hin.
  destruct Hin as [Hin|Hin].
  - cbn [In] in Hin. intuition congruence.
  - assert (T : existsb (String.eqb s) digit_keys = true).
    { apply existsb_exists. exists s. split; [exact Hin|apply String.eqb_refl]. }
    congruence.
Qed.

Lemma handleLetterKeys_cases (p : Player) (e : KeyboardEvent) (k : string) :
  (JS.toLowerCase k = "a"
   /\ handleLetterKeys p e k =
      PreventDefault ::
      (if live (options p) then []
       else (if (currentTime (video p) >= 5)%js
             then [Seek (currentTime (video p) - 5)%js None]
             else [Seek 0 None]) ++ [SetAutoHide]))
  \/ (JS.toLowerCase k = "d"
      /\ handleLetterKeys p e k =
         PreventDefault ::
         (if live (options p) then []
          else (if JS.truthy (duration (video p))
                   && (currentTime (video p) + 5 < duration (video p))%js
                then [Seek (currentTime (video p) + 5)%js None]
                else if JS.truthy (duration (video p))
                     then [Seek (duration (video p) - 1)%js None]
                     else []) ++ [SetAutoHide]))
  \/ (JS.toLowerCase k = "f"
      /\ handleLetterKeys p e k =
         PreventDefault ::
         (if isFullScreen p browser then [FullScreenCancel browser]
          else [FullScreenRequest browser]))
  \/ (JS.toLowerCase k = "w"
      /\ handleLetterKeys p e k =
         PreventDefault ::
         (if isFullScreen p web then [FullScreenCancel web]
          else [FullScreenRequest web]))
  \/ (JS.toLowerCase k = "m"
      /\ handleLetterKeys p e k =
         PreventDefault ::
         (if muted (video p) then [SetMuted false; Notice "Unmuted"]
          else [SetMuted true; Notice "Muted"]))
  \/ ((JS.toLowerCase k = "+" \/ JS.toLowerCase k = "=")
      /\ handleLetterKeys p e k = PreventDefault :: changeSpeed p 0.05)
  \/ (JS.toLowerCase k = "-"
      /\ handleLetterKeys p e k = PreventDefault :: changeSpeed p (-0.05))
  \/ (exists n : Z,
         (0 <= n <= 9)%Z /\ JS.toLowerCase k = digit_label n
         /\ handleLetterKeys p e k =
            PreventDefault ::
            (if negb (live (options p))
             then seekToPercent p (JS.Fin (inject_Z (n * 10)))
             else []))
  \/ (~ In (JS.toLowerCase k) letter_keys /\ handleLetterKeys p e k = []).
Proof.
  unfold handleLetterKeys. cbv zeta.
  destruct (JS.toLowerCase k =? "a")%string eqn:Ea.
  { left. apply String.eqb_eq in Ea. auto. }
  destruct (JS.toLowerCase k =? "d")%string eqn:Ed.
  { right; left. apply String.eqb_eq in Ed. auto. }
  destruct (JS.toLowerCase k =? "f")%string eqn:Ef.
  { do 2 right; left. apply String.eqb_eq in Ef. auto. }
  destruct (JS.toLowerCase k =? "w")%string eqn:Ew.
  { do 3 right; left. apply String.eqb_eq in Ew. auto. }
  destruct (JS.toLowerCase k =? "m")%string eqn:Em.
  { do 4 right; left. apply String.eqb_eq in Em. auto. }
  destruct ((JS.toLowerCase k =? "+")%string || (JS.toLowerCase k =? "=")%string)
    eqn:Ep.
  { do 5 right; left. apply orb_true_iff in Ep.
    rewrite !String.eqb_eq in Ep. auto. }
  destruct (JS.toLowerCase k =? "-")%string eqn:Es.
  { do 6 right; left. apply String.eqb_eq in Es. auto. }
  destruct (existsb (String.eqb (JS.toLowerCase k)) digit_keys) eqn:Eg.
  { do 7 right; left.
    destruct (digit_key_label _ Eg) as [n [Hn En]].
    exists n. rewrite En at 2. rewrite (parseInt_digit_label n Hn). auto. }
  do 8 right. split; [|reflexivity].
  apply not_letter_key; assumption.
Qed.

Lemma letter_key_handled (p : Player) (e : KeyboardEvent) (k : string) :
  In (JS.toLowerCase k) letter_keys ->
  exists rest, handleLetterKeys p e k = PreventDefault :: rest.
Proof.
  intros Hin.
  destruct (handleLetterKeys_cases p e k)
    as [[_ H]|[[_ H]|[[_ H]|[[_ H]|[[_ H]|[[_ H]|[[_ H]|[[n [_ [_ H]]]|[N _]]]]]]]]];
    try (rewrite H; eexists; reflexivity).
  contradiction.
Qed.

(** X2.  An eligible event that no modifier rule takes and whose key code
    has no case in the switch is handled exactly when its label, in lower
    case, is one of [a d f w m + = -] or a digit; any other key has no
    effect at all, and its default action is not prevented. *)
Theorem unmatched_key_has_no_effect (p : Player) (doc : Document)
  (e : KeyboardEvent) :
  eligible p doc = true ->
  modifier_rule e = false ->
  ~ In (keyCode e) switch_codes ->
  (doHotKey p doc e = [] <-> ~ In (JS.toLowerCase (key e)) letter_keys).
Proof.
  intros El Hm Hc. rewrite (doHotKey_letter p doc e El Hm Hc). split.
  - intros H Hin.
    destruct (letter_key_handled p e (key e) Hin) as [rest Hr].
    rewrite Hr in H. discriminate H.
  - intros N.
    destruct (handleLetterKeys_cases p e (key e))
      as [[L _]|[[L _]|[[L _]|[[L _]|[[L _]|[[L _]|[[L _]|[[n [Hn [L _]]]|[_ H]]]]]]]]];
      try exact H; exfalso; apply N; unfold letter_keys.
    + rewrite L. cbn. tauto.
    + rewrite L. cbn. tauto.
    + rewrite L. cbn. tauto.
    + rewrite L. cbn. tauto.
    + rewrite L. cbn. tauto.
    + destruct L as [L|L]; rewrite L; cbn; tauto.
    + rewrite L. cbn. tauto.
    + rewrite L. apply in_or_app. right.
      each_digit n Hn; cbn; tauto.
Qed.

(** The key [q] does nothing; the key [m] does something. *)
Lemma unmatched_key_on_examples :
  eligible example_player example_document = true
  /\ modifier_rule plain_q = false
  /\ ~ In (keyCode plain_q) switch_codes
  /\ doHotKey example_player example_document plain_q = []
  /\ doHotKey example_player example_document plain_m <> [].
Proof.
  split; [reflexivity|]. split; [reflexivity|].
  assert (C : forall c, In c [81%Z; 77%Z] -> ~ In c switch_codes).
  { intros c [H|[H|[]]]; subst c; cbn; intuition discriminate. }
  split; [apply C; left; reflexivity|]. split.
  - apply (unmatched_key_has_no_effect example_player example_document
             plain_q eq_refl eq_refl).
    + apply C. left. reflexivity.
    + cbn. intuition discriminate.
  - intros H.
    apply (unmatched_key_has_no_effect example_player example_document
             plain_m eq_refl eq_refl) in H.
    + apply H. cbn. tauto.
    + apply C. right. left. reflexivity.
Defined.

(** *** [preventDefault] *)

Lemma actions_changeSpeed (p : Player) (d : JS.number) :
  forallb is_action (changeSpeed p d) = true.
Proof. reflexivity. Qed.

Lemma actions_takeScreenshot (p : Player) :
  forallb is_action (takeScreenshot p) = true.
Proof. reflexivity. Qed.

Lemma actions_seekToPercent (p : Player) (x : JS.number) :
  forallb is_action (seekToPercent p x) = true.
Proof.
  unfold seekToPercent. destruct (JS.truthy (duration (video p))); reflexivity.
Qed.

Ltac after_preventDefault :=
  right; eexists; split; [reflexivity|];
  repeat match goal with
         | |- context [if ?c then _ else _] => destruct c
         end;
  first [ reflexivity
        | apply actions_changeSpeed
        | apply actions_takeScreenshot
        | apply actions_seekToPercent ].

(** X3.  Whenever [doHotKey] does anything, the first thing it does is to
    prevent the default action of the event, and it does so once: its
    effects are either none, or [preventDefault] followed by effects on the
    player, the controller or the canvas only. *)
Theorem preventDefault_comes_first (p : Player) (doc : Document)
  (e : KeyboardEvent) :
  doHotKey p doc e = []
  \/ exists rest,
       doHotKey p doc e = PreventDefault :: rest
       /\ forallb is_action rest = true.
Proof.
  destruct (eligible p doc) eqn:El;
    [|left; apply doHotKey_not_eligible; exact El].
  rewrite (doHotKey_eligible p doc e El).
  destruct (rule1 e); [after_preventDefault|].
  destruct (rule2 e); [after_preventDefault|].
  destruct (rule3 e); [after_preventDefault|].
  destruct (rule4 e); [after_preventDefault|].
  destruct (keyCode e =? 32)%Z; [after_preventDefault|].
  destruct (keyCode e =? 37)%Z; [after_preventDefault|].
  destruct (keyCode e =? 39)%Z; [after_preventDefault|].
  destruct (keyCode e =? 38)%Z; [after_preventDefault|].
  destruct (keyCode e =? 40)%Z; [after_preventDefault|].
  destruct (keyCode e =? 13)%Z.
  { destruct (location e =? 3)%Z; [after_preventDefault|left; reflexivity]. }
  destruct (handleLetterKeys_cases p e (key e))
    as [[_ H]|[[_ H]|[[_ H]|[[_ H]|[[_ H]|[[_ H]|[[_ H]|[[n [_ [_ H]]]|[_ H]]]]]]]]];
    rewrite H; try after_preventDefault.
  left. reflexivity.
Qed.

(** *** Live streams *)

(** X4.  On a live stream the seek keys are swallowed: an eligible left or
    right arrow, [a], [d] or digit that no modifier rule takes prevents the
    default action and does nothing else. *)
Theorem live_swallows_seek_keys (p : Player) (doc : Document)
  (e : KeyboardEvent) :
  live (options p) = true ->
  eligible p doc = true ->
  modifier_rule e = false ->
  keyCode e = 37%Z \/ keyCode e = 39%Z
  \/ (~ In (keyCode e) switch_codes
      /\ (JS.toLowerCase (key e) = "a" \/ JS.toLowerCase (key e) = "d"
          \/ In (JS.toLowerCase (key e)) digit_keys)) ->
  doHotKey p doc e = [PreventDefault].
Proof.
  intros Hl El Hm [Hk|[Hk|[Hc Hkey]]].
  - rewrite (doHotKey_unmodified p doc e El Hm), Hk, Hl. reflexivity.
  - rewrite (doHotKey_unmodified p doc e El Hm), Hk, Hl. reflexivity.
  - rewrite (doHotKey_letter p doc e El Hm Hc).
    unfold handleLetterKeys. cbv zeta. rewrite Hl.
    destruct Hkey as [H|[H|H]].
    + rewrite H. reflexivity.
    + rewrite H. reflexivity.
    + assert (G : existsb (String.eqb (JS.toLowerCase (key e))) digit_keys
                  = true).
      { apply existsb_exists. eexists. split; [exact H|apply String.eqb_refl]. }
      unfold digit_keys in H. cbn [In] in H.
      destruct H as [H|[H|[H|[H|[H|[H|[H|[H|[H|[H|[]]]]]]]]]]];
        rewrite <- H; reflexivity.
Qed.

(** On a live stream the key 7 only prevents the default action. *)
Lemma live_digit_is_swallowed :
  live (options live_player) = true
  /\ eligible live_player example_document = true
  /\ modifier_rule plain_7 = false
  /\ ~ In (keyCode plain_7) switch_codes
  /\ In (JS.toLowerCase (key plain_7)) digit_keys
  /\ doHotKey live_player example_document plain_7 = [PreventDefault].
Proof.
  assert (C : ~ In (keyCode plain_7) switch_codes)
    by (cbn; intuition discriminate).
  assert (D : In (JS.toLowerCase (key plain_7)) digit_keys)
    by (cbn; tauto).
  split; [reflexivity|]. split; [reflexivity|]. split; [reflexivity|].
  split; [exact C|]. split; [exact D|].
  apply (live_swallows_seek_keys live_player example_document plain_7
           eq_refl eq_refl eq_refl).
  right. right. split; [exact C|]. right. right. exact D.
Defined.

(** *** The key [d] *)

(** X5.  The key [d], on an eligible event off a live stream: with an
    unknown duration ([NaN] or 0) it calls no seek but still resets the
    auto-hide timer; with a known duration [D] it seeks to [t + 5] when that
    is before [D] and otherwise to [D - 1], never to [D] itself, so that in
    the last second of the video it seeks backwards. *)
Theorem d_key_stops_before_the_end (p : Player) (doc : Document)
  (e : KeyboardEvent) (t : Q) :
  eligible p doc = true ->
  modifier_rule e = false ->
  ~ In (keyCode e) switch_codes ->
  JS.toLowerCase (key e) = "d" ->
  live (options p) = false ->
  currentTime (video p) = JS.Fin t ->
  (JS.truthy (duration (video p)) = false ->
   doHotKey p doc e = [PreventDefault; SetAutoHide])
  /\ (forall D : Q,
         duration (video p) = JS.Fin D -> ~ D == 0 ->
         exists x : Q,
           doHotKey p doc e = [PreventDefault; Seek x None; SetAutoHide]
           /\ (t + 5 < D -> x == t + 5)
           /\ (D <= t + 5 -> x == D - 1)
           /\ x < D
           /\ (D - 1 < t -> x < t)).
Proof.
  intros El Hm Hc Hkey Hl Ht.
  rewrite (doHotKey_letter p doc e El Hm Hc).
  unfold handleLetterKeys. cbv zeta. rewrite Hkey, Hl, Ht.
  cbn [String.eqb Ascii.eqb Bool.eqb andb]. cbn [JS.add]. unfold JS.fin.
  split.
  - intros T. rewrite T. reflexivity.
  - intros D Hd HD. rewrite Hd.
    rewrite (proj2 (JSFacts.truthy_Fin D) HD). cbn [andb JS.sub].
    unfold JS.fin.
    destruct (JS.lt (Qred (t + 5)) D) eqn:L.
    + apply JSFacts.lt_Fin in L. rewrite Qred_correct in L.
      eexists. split; [reflexivity|]. rewrite Qred_correct.
      repeat split; intros; lra.
    + apply JSFacts.lt_Fin_false in L. rewrite Qred_correct in L.
      eexists. split; [reflexivity|]. rewrite Qred_correct.
      repeat split; intros; lra.
Qed.

(** At 99.5 seconds of 100 the key [d] seeks back to 99; with an unknown
    duration it seeks nowhere. *)
Lemma d_key_in_the_last_second :
  eligible last_second_player example_document = true
  /\ modifier_rule plain_d = false
  /\ ~ In (keyCode plain_d) switch_codes
  /\ (exists x : Q,
         doHotKey last_second_player example_document plain_d
         = [PreventDefault; Seek x None; SetAutoHide]
         /\ x < 99.5)
  /\ doHotKey unknown_duration_player example_document plain_d
     = [PreventDefault; SetAutoHide].
Proof.
  assert (C : ~ In (keyCode plain_d) switch_codes)
    by (cbn; intuition discriminate).
  split; [reflexivity|]. split; [reflexivity|]. split; [exact C|]. split.
  - destruct (proj2 (d_key_stops_before_the_end last_second_player
                       example_document plain_d 99.5 eq_refl eq_refl C
                       eq_refl eq_refl eq_refl) 100 eq_refl
                    ltac:(vm_compute; discriminate))
      as [x [Hx [_ [_ [_ Hb]]]]].
    exists x. split; [exact Hx|]. apply Hb. vm_compute. reflexivity.
  - apply (d_key_stops_before_the_end unknown_duration_player
             example_document plain_d 3 eq_refl eq_refl C eq_refl eq_refl
             eq_refl).
    reflexivity.
Defined.

(** *** Shift+S *)

(** X6.  Shift+S on an eligible event takes a screenshot when Ctrl is not
    held, whatever the key code and whether the stream is live or not; with
    Ctrl held the Ctrl+Shift rule comes first and the speed is reset. *)
Theorem shift_s_takes_screenshot (p : Player) (doc : Document)
  (e : KeyboardEvent) :
  eligible p doc = true ->
  shiftKey e = true ->
  JS.toLowerCase (key e) = "s" ->
  (ctrlKey e = false -> doHotKey p doc e = PreventDefault :: takeScreenshot p)
  /\ (ctrlKey e = true -> doHotKey p doc e = [PreventDefault; Speed 1]).
Proof.
  intros El Hs Hkey. rewrite (doHotKey_eligible p doc e El).
  unfold rule1, rule2, rule3, rule4. rewrite Hs, Hkey.
  split; intros Hc; rewrite Hc; reflexivity.
Qed.

(** Shift+S on a live stream, with and without Ctrl. *)
Lemma shift_s_on_examples :
  eligible live_player example_document = true
  /\ shiftKey shift_s = true
  /\ JS.toLowerCase (key shift_s) = "s"
  /\ doHotKey live_player example_document shift_s
     = PreventDefault :: takeScreenshot live_player
  /\ doHotKey live_player example_document ctrl_shift_s
     = [PreventDefault; Speed 1].
Proof.
  split; [reflexivity|]. split; [reflexivity|]. split; [reflexivity|]. split.
  - apply (shift_s_takes_screenshot live_player example_document shift_s
             eq_refl eq_refl eq_refl).
    reflexivity.
  - apply (shift_s_takes_screenshot live_player example_document ctrl_shift_s
             eq_refl eq_refl eq_refl).
    reflexivity.
Defined.

(* ================================================================== *)
(** ** Which keys reach which method of the player *)
(* ================================================================== *)

Ltac scan H :=
  unfold changeSpeed, resetSpeed, takeScreenshot, seekToPercent in H;
  cbv zeta in H;
  repeat match type of H with
         | context [if ?c then _ else _] => destruct c eqn:?
         end;
  cbn [In app] in H;
  repeat match type of H with
         | _ \/ _ => destruct H as [H|H]
         end;
  try discriminate H; try contradiction.

(** The effects of [doHotKey] come from an eligible event, and either from
    a modifier rule or from the switch on the key code. *)
Lemma doHotKey_origin (p : Player) (doc : Document) (e : KeyboardEvent)
  (eff : Effect) :
  In eff (doHotKey p doc e) ->
  eligible p doc = true
  /\ ((modifier_rule e = true
       /\ In eff (PreventDefault ::
                  changeSpeed p 0.05 ++ changeSpeed p (-0.05)
                  ++ resetSpeed p ++ takeScreenshot p))
      \/ (modifier_rule e = false
          /\ ((keyCode e = 32%Z /\ In eff [PreventDefault; Toggle])
              \/ (keyCode e = 37%Z
                  /\ In eff [PreventDefault;
                             Seek (currentTime (video p) - 5)%js None;
                             SetAutoHide])
              \/ (keyCode e = 39%Z
                  /\ In eff [PreventDefault;
                             Seek (currentTime (video p) + 5)%js None;
                             SetAutoHide])
              \/ (keyCode e = 38%Z
                  /\ In eff [PreventDefault; SetVolume (volume p + 0.1)%js])
              \/ (keyCode e = 40%Z
                  /\ In eff [PreventDefault; SetVolume (volume p - 0.1)%js])
              \/ (keyCode e = 13%Z /\ location e = 3%Z
                  /\ In eff [PreventDefault; Speed 1])
              \/ (~ In (keyCode e) switch_codes
                  /\ In eff (handleLetterKeys p e (key e)))))).
Proof.
  intros H.
  destruct (eligible p doc) eqn:El;
    [|rewrite (doHotKey_not_eligible p doc e El) in H; destruct H].
  split; [reflexivity|].
  rewrite (doHotKey_eligible p doc e El) in H.
  unfold modifier_rule.
  destruct (rule1 e).
  { left. split; [reflexivity|]. cbn [In app changeSpeed] in *. tauto. }
  destruct (rule2 e).
  { left. split; [reflexivity|]. cbn [In app changeSpeed] in *. tauto. }
  destruct (rule3 e).
  { left. split; [reflexivity|]. cbn [In app changeSpeed resetSpeed] in *.
    tauto. }
  destruct (rule4 e).
  { left. split; [reflexivity|]. destruct H as [H|H]; [left; exact H|].
    right. apply in_or_app. right. apply in_or_app. right.
    apply in_or_app. right. exact H. }
  right. split; [reflexivity|].
  destruct (Z.eqb_spec (keyCode e) 32); [left; auto|].
  destruct (Z.eqb_spec (keyCode e) 37).
  { right; left. split; [assumption|].
    destruct (live (options p)); cbn [In] in *; tauto. }
  destruct (Z.eqb_spec (keyCode e) 39).
  { do 2 right; left. split; [assumption|].
    destruct (live (options p)); cbn [In] in *; tauto. }
  destruct (Z.eqb_spec (keyCode e) 38); [do 3 right; left; auto|].
  destruct (Z.eqb_spec (keyCode e) 40); [do 4 right; left; auto|].
  destruct (Z.eqb_spec (keyCode e) 13).
  { do 5 right; left. split; [assumption|].
    destruct (Z.eqb_spec (location e) 3); [auto|destruct H]. }
  do 6 right. split; [|exact H].
  unfold switch_codes. cbn [In]. intuition congruence.
Qed.

(** X7.  [player.toggle] is called for the space bar only: exactly on the
    eligible events with key code 32 that no modifier rule takes, whatever
    their label. *)
Theorem toggle_only_on_space (p : Player) (doc : Document)
  (e : KeyboardEvent) :
  In Toggle (doHotKey p doc e) <->
  eligible p doc = true /\ modifier_rule e = false /\ keyCode e = 32%Z.
Proof.
  split.
  - intros H. apply doHotKey_origin in H. destruct H as [El H].
    split; [exact El|].
    destruct H as [[_ H]|[Hm H]]; [scan H|].
    split; [exact Hm|].
    destruct H as [[Hk _]|[[_ H]|[[_ H]|[[_ H]|[[_ H]|[[_ [_ H]]|[_ H]]]]]]];
      [exact Hk|scan H..|].
    exfalso.
    destruct (handleLetterKeys_cases p e (key e))
      as [[_ R]|[[_ R]|[[_ R]|[[_ R]|[[_ R]|[[_ R]|[[_ R]|[[n [_ [_ R]]]|[_ R]]]]]]]]];
      rewrite R in H; scan H.
  - intros [El [Hm Hk]].
    rewrite (doHotKey_unmodified p doc e El Hm), Hk. cbn. tauto.
Qed.

(** The space bar toggles the playback; the key [m] does not. *)
Lemma space_toggles :
  In Toggle (doHotKey example_player example_document plain_space)
  /\ ~ In Toggle (doHotKey example_player example_document plain_m).
Proof.
  split.
  - apply (toggle_only_on_space example_player example_document plain_space).
    repeat split.
  - intros H.
    apply (toggle_only_on_space example_player example_document plain_m) in H.
    destruct H as [_ [_ H]]. discriminate H.
Defined.

(** X8.  [player.volume] is given a new value for the up and down arrows
    only: exactly on the eligible events with key code 38 or 40 that no
    modifier rule takes, and the value is the current volume plus or minus
    0.1. *)
Theorem volume_only_on_arrows (p : Player) (doc : Document)
  (e : KeyboardEvent) (v : JS.number) :
  In (SetVolume v) (doHotKey p doc e) <->
  eligible p doc = true /\ modifier_rule e = false
  /\ ((keyCode e = 38%Z /\ v = (volume p + 0.1)%js)
      \/ (keyCode e = 40%Z /\ v = (volume p - 0.1)%js)).
Proof.
  split.
  - intros H. apply doHotKey_origin in H. destruct H as [El H].
    split; [exact El|].
    destruct H as [[_ H]|[Hm H]]; [scan H|].
    split; [exact Hm|].
    destruct H as [[_ H]|[[_ H]|[[_ H]|[[Hk H]|[[Hk H]|[[_ [_ H]]|[_ H]]]]]]];
      try solve [scan H].
    + left. split; [exact Hk|]. scan H. congruence.
    + right. split; [exact Hk|]. scan H. congruence.
    + exfalso.
      destruct (handleLetterKeys_cases p e (key e))
        as [[_ R]|[[_ R]|[[_ R]|[[_ R]|[[_ R]|[[_ R]|[[_ R]|[[n [_ [_ R]]]|[_ R]]]]]]]]];
        rewrite R in H; scan H.
  - intros [El [Hm [[Hk Hv]|[Hk Hv]]]];
      rewrite (doHotKey_unmodified p doc e El Hm), Hk, Hv; cbn; tauto.
Qed.

(** The up arrow at volume 1 asks for 1 + 0.1, and for nothing else. *)
Lemma up_arrow_sets_one_volume :
  In (SetVolume (11 # 10))
     (doHotKey example_player example_document plain_up)
  /\ ~ In (SetVolume 1) (doHotKey example_player example_document plain_up).
Proof.
  split.
  - apply (volume_only_on_arrows example_player example_document plain_up).
    split; [reflexivity|]. split; [reflexivity|]. left. split; reflexivity.
  - intros H.
    apply (volume_only_on_arrows example_player example_document plain_up)
      in H.
    destruct H as [_ [_ [[_ H]|[H _]]]]; discriminate H.
Defined.

(** X9.  [video.muted] is assigned for the key [m] only, and the value
    assigned is the opposite of the current one; the notice that follows
    names the new state. *)
Theorem mute_only_on_m (p : Player) (doc : Document) (e : KeyboardEvent) :
  (forall b : bool,
      In (SetMuted b) (doHotKey p doc e) <->
      eligible p doc = true /\ modifier_rule e = false
      /\ ~ In (keyCode e) switch_codes
      /\ JS.toLowerCase (key e) = "m"
      /\ b = negb (muted (video p)))
  /\ (eligible p doc = true -> modifier_rule e = false ->
      ~ In (keyCode e) switch_codes -> JS.toLowerCase (key e) = "m" ->
      doHotKey p doc e =
        [PreventDefault; SetMuted (negb (muted (video p)));
         Notice (if muted (video p) then "Unmuted" else "Muted")]).
Proof.
  assert (R : eligible p doc = true -> modifier_rule e = false ->
              ~ In (keyCode e) switch_codes ->
              JS.toLowerCase (key e) = "m" ->
              doHotKey p doc e =
                [PreventDefault; SetMuted (negb (muted (video p)));
                 Notice (if muted (video p) then "Unmuted" else "Muted")]).
  { intros El Hm Hc Hkey. rewrite (doHotKey_letter p doc e El Hm Hc).
    unfold handleLetterKeys. cbv zeta. rewrite Hkey.
    destruct (muted (video p)); reflexivity. }
  split; [|exact R].
  intros b. split.
  - intros H. apply doHotKey_origin in H. destruct H as [El H].
    split; [exact El|].
    destruct H as [[_ H]|[Hm H]]; [scan H|].
    split; [exact Hm|].
    destruct H as [[_ H]|[[_ H]|[[_ H]|[[_ H]|[[_ H]|[[_ [_ H]]|[Hc H]]]]]]];
      try solve [scan H].
    split; [exact Hc|].
    destruct (handleLetterKeys_cases p e (key e))
      as [[_ K]|[[_ K]|[[_ K]|[[_ K]|[[L K]|[[_ K]|[[_ K]|[[n [_ [_ K]]]|[_ K]]]]]]]]];
      rewrite K in H; try solve [scan H].
    split; [exact L|].
    destruct (muted (video p)); cbn [In] in H;
      destruct H as [H|[H|[H|[]]]]; try discriminate H;
      injection H as H; subst b; reflexivity.
  - intros [El [Hm [Hc [Hkey Hb]]]]. rewrite (R El Hm Hc Hkey), Hb.
    cbn. tauto.
Qed.

(** The key [m] on a player that is not muted. *)
Lemma m_key_mutes :
  eligible example_player example_document = true
  /\ modifier_rule plain_m = false
  /\ ~ In (keyCode plain_m) switch_codes
  /\ JS.toLowerCase (key plain_m) = "m"
  /\ doHotKey example_player example_document plain_m
     = [PreventDefault; SetMuted true; Notice "Muted"].
Proof.
  assert (C : ~ In (keyCode plain_m) switch_codes)
    by (cbn; intuition discriminate).
  split; [reflexivity|]. split; [reflexivity|]. split; [exact C|].
  split; [reflexivity|].
  exact (proj2 (mute_only_on_m example_player example_document plain_m)
           eq_refl eq_refl C eq_refl).
Defined.

(** X10.  A full screen is requested or cancelled by [doHotKey] for its own
    letter only, [f] for the browser one and [w] for the in-page one: it is
    requested exactly when the player is not in it, and cancelled exactly
    when it is. *)
Theorem fullscreen_only_on_its_key (p : Player) (doc : Document)
  (e : KeyboardEvent) (type : FullScreenType) :
  (In (FullScreenRequest type) (doHotKey p doc e) <->
   eligible p doc = true /\ modifier_rule e = false
   /\ ~ In (keyCode e) switch_codes
   /\ JS.toLowerCase (key e) = fullscreen_key type
   /\ isFullScreen p type = false)
  /\ (In (FullScreenCancel type) (doHotKey p doc e) <->
      eligible p doc = true /\ modifier_rule e = false
      /\ ~ In (keyCode e) switch_codes
      /\ JS.toLowerCase (key e) = fullscreen_key type
      /\ isFullScreen p type = true).
Proof.
  assert (B : forall eff,
             (exists t, eff = FullScreenRequest t \/ eff = FullScreenCancel t) ->
             In eff (doHotKey p doc e) ->
             eligible p doc = true /\ modifier_rule e = false
             /\ ~ In (keyCode e) switch_codes
             /\ In eff (handleLetterKeys p e (key e))).
  { intros eff [t Ht] H. apply doHotKey_origin in H. destruct H as [El H].
    split; [exact El|].
    destruct H as [[_ H]|[Hm H]];
      [exfalso; destruct Ht; subst eff; scan H|].
    split; [exact Hm|].
    destruct H as [[_ H]|[[_ H]|[[_ H]|[[_ H]|[[_ H]|[[_ [_ H]]|[Hc H]]]]]]];
      try solve [exfalso; destruct Ht; subst eff; scan H].
    split; assumption. }
  assert (F : forall t, JS.toLowerCase (key e) = fullscreen_key t ->
                handleLetterKeys p e (key e) =
                  PreventDefault ::
                  (if isFullScreen p t then [FullScreenCancel t]
                   else [FullScreenRequest t])).
  { intros t Hk. unfold handleLetterKeys. cbv zeta. rewrite Hk.
    destruct t; reflexivity. }
  split; split.
  - intros H. apply B in H; [|eexists; left; reflexivity].
    destruct H as [El [Hm [Hc H]]].
    split; [exact El|]. split; [exact Hm|]. split; [exact Hc|].
    destruct (handleLetterKeys_cases p e (key e))
      as [[_ K]|[[_ K]|[[L K]|[[L K]|[[_ K]|[[_ K]|[[_ K]|[[n [_ [_ K]]]|[_ K]]]]]]]]];
      rewrite K in H; try solve [scan H].
    + destruct (isFullScreen p browser) eqn:I; cbn [In] in H;
        destruct H as [H|[H|[]]]; try discriminate H.
      injection H as H. subst type. auto.
    + destruct (isFullScreen p web) eqn:I; cbn [In] in H;
        destruct H as [H|[H|[]]]; try discriminate H.
      injection H as H. subst type. auto.
  - intros [El [Hm [Hc [Hk Hi]]]].
    rewrite (doHotKey_letter p doc e El Hm Hc), (F type Hk), Hi. cbn. tauto.
  - intros H. apply B in H; [|eexists; right; reflexivity].
    destruct H as [El [Hm [Hc H]]].
    split; [exact El|]. split; [exact Hm|]. split; [exact Hc|].
    destruct (handleLetterKeys_cases p e (key e))
      as [[_ K]|[[_ K]|[[L K]|[[L K]|[[_ K]|[[_ K]|[[_ K]|[[n [_ [_ K]]]|[_ K]]]]]]]]];
      rewrite K in H; try solve [scan H].
    + destruct (isFullScreen p browser) eqn:I; cbn [In] in H;
        destruct H as [H|[H|[]]]; try discriminate H.
      injection H as H. subst type. auto.
    + destruct (isFullScreen p web) eqn:I; cbn [In] in H;
        destruct H as [H|[H|[]]]; try discriminate H.
      injection H as H. subst type. auto.
  - intros [El [Hm [Hc [Hk Hi]]]].
    rewrite (doHotKey_letter p doc e El Hm Hc), (F type Hk), Hi. cbn. tauto.
Qed.

(** Out of any full screen, the key [f] requests the browser one and
    leaves the in-page one alone. *)
Lemma f_key_requests_browser_fullscreen :
  In (FullScreenRequest browser)
     (doHotKey example_player example_document plain_f)
  /\ ~ In (FullScreenRequest web)
         (doHotKey example_player example_document plain_f).
Proof.
  split.
  - apply (proj1 (fullscreen_only_on_its_key example_player example_document
                    plain_f browser)).
    split; [reflexivity|]. split; [reflexivity|].
    split; [cbn; intuition discriminate|]. split; reflexivity.
  - intros H.
    apply (proj1 (fullscreen_only_on_its_key example_player example_document
                    plain_f web)) in H.
    destruct H as [_ [_ [_ [H _]]]]. discriminate H.
Defined.

(* ================================================================== *)
(** ** More on the speed *)
(* ================================================================== *)

Lemma changeSpeed_new_rate (p : Player) (r d : Q) :
  playbackRate (video p) = JS.Fin r ->
  exists x : Q, changeSpeed p d = [Speed x] /\ x == new_rate r d.
Proof.
  intros Hr. unfold changeSpeed. cbv zeta. rewrite Hr. cbn [JS.add].
  unfold JS.fin.
  destruct (Math_clamp 0.25 2 (Qred (r + d))) as [z [Hz Ez]]; [lra|].
  rewrite Hz. cbn [JS.mul JS.Math_round JS.div]. unfold JS.fin.
  cbn [JS.Math_round JS.div]. change (JS.Qzero 100) with false.
  cbv iota. unfold JS.fin.
  eexists. split; [reflexivity|].
  rewrite Qred_correct. unfold new_rate.
  rewrite (clamp_comp _ _ 0.25 2 (Qred_correct (r + d))) in Ez.
  assert (E : Qfloor (Qred (z * 100) + (1 # 2))
              = Qfloor (clamp (r + d) 0.25 2 * 100 + (1 # 2))).
  { apply Qfloor_comp. rewrite Qred_correct, Ez. reflexivity. }
  rewrite E. reflexivity.
Qed.

Lemma Qdiv_100 (x : Q) : x / 100 == x * (1 # 100).
Proof. unfold Qdiv. reflexivity. Qed.

Lemma new_rate_bounds (r d : Q) : 0.25 <= new_rate r d <= 2.
Proof.
  unfold new_rate.
  assert (B := clamp_bounds (r + d) 0.25 2 ltac:(lra)).
  set (z := clamp (r + d) 0.25 2) in *.
  assert (L : (25 <= Qfloor (z * 100 + (1 # 2)))%Z).
  { change 25%Z with (Qfloor 25). apply Qfloor_resp_le. lra. }
  assert (U : (Qfloor (z * 100 + (1 # 2)) <= 200)%Z).
  { change 200%Z with (Qfloor (200 + (1 # 2))). apply Qfloor_resp_le. lra. }
  rewrite Zle_Qle in L, U.
  change (inject_Z 25) with 25 in L. change (inject_Z 200) with 200 in U.
  rewrite Qdiv_100. lra.
Qed.

Lemma clamp_monotone (x y lo hi : Q) :
  lo <= hi -> x <= y -> clamp x lo hi <= clamp y lo hi.
Proof.
  intros Hlh Hxy. unfold clamp.
  destruct (Qle_bool x lo) eqn:X1; destruct (Qle_bool y lo) eqn:Y1;
    destruct (Qle_bool hi x) eqn:X2; destruct (Qle_bool hi y) eqn:Y2;
    repeat match goal with
           | H : Qle_bool _ _ = true |- _ => apply Qle_bool_iff in H
           | H : Qle_bool ?a ?b = false |- _ =>
               assert (~ a <= b)
                 by (intros L; apply Qle_bool_iff in L; congruence);
               clear H
           end;
    lra.
Qed.

(** X11.  Every rate that [doHotKey] passes to [player.speed], for any
    event and from any finite current rate, lies between 0.25 and 2. *)
Theorem speed_always_within_range (p : Player) (doc : Document)
  (e : KeyboardEvent) (r : Q) (x : JS.number) :
  playbackRate (video p) = JS.Fin r ->
  In (Speed x) (doHotKey p doc e) ->
  exists q : Q, x = JS.Fin q /\ 0.25 <= q <= 2.
Proof.
  intros Hr H.
  assert (C : forall d : Q, In (Speed x) (changeSpeed p d) ->
                exists q : Q, x = JS.Fin q /\ 0.25 <= q <= 2).
  { intros d Hd.
    destruct (changeSpeed_new_rate p r d Hr) as [y [Hy Ey]].
    rewrite Hy in Hd. destruct Hd as [Hd|[]]. injection Hd as Hd.
    exists y. split; [symmetry; exact Hd|].
    rewrite Ey. apply new_rate_bounds. }
  assert (O : x = JS.Fin 1 -> exists q : Q, x = JS.Fin q /\ 0.25 <= q <= 2).
  { intros E. exists 1. split; [exact E|lra]. }
  apply doHotKey_origin in H. destruct H as [_ H].
  destruct H as [[_ H]|[_ H]].
  - destruct H as [H|H]; [discriminate H|].
    apply in_app_or in H. destruct H as [H|H]; [exact (C _ H)|].
    apply in_app_or in H. destruct H as [H|H]; [exact (C _ H)|].
    apply in_app_or in H. destruct H as [H|H].
    + destruct H as [H|[]]. injection H as H. apply O. symmetry. exact H.
    + scan H.
  - destruct H as [[_ H]|[[_ H]|[[_ H]|[[_ H]|[[_ H]|[[_ [_ H]]|[_ H]]]]]]];
      try solve [scan H].
    + scan H. injection H as H. apply O. symmetry. exact H.
    + destruct (handleLetterKeys_cases p e (key e))
        as [[_ K]|[[_ K]|[[_ K]|[[_ K]|[[_ K]|[[_ K]|[[_ K]|[[n [_ [_ K]]]|[_ K]]]]]]]]];
        rewrite K in H; try solve [scan H].
      * destruct H as [H|H]; [discriminate H|exact (C _ H)].
      * destruct H as [H|H]; [discriminate H|exact (C _ H)].
Qed.

(** Ctrl+X at rate 2 passes a rate within the range. *)
Lemma speed_within_range_at_two :
  playbackRate (video rate_two_player) = JS.Fin 2
  /\ In (Speed 2) (doHotKey rate_two_player example_document ctrl_x)
  /\ exists q : Q, JS.Fin 2 = JS.Fin q /\ 0.25 <= q <= 2.
Proof.
  assert (I : In (Speed 2) (doHotKey rate_two_player example_document ctrl_x))
    by (right; left; reflexivity).
  split; [reflexivity|]. split; [exact I|].
  exact (speed_always_within_range rate_two_player example_document ctrl_x 2
           (JS.Fin 2) eq_refl I).
Defined.

(** X12.  A higher current rate never gives a lower new rate: for the same
    change, the rate that [changeSpeed] passes on grows with the current
    rate. *)
Theorem changeSpeed_is_monotone (p p' : Player) (r r' d : Q) :
  playbackRate (video p) = JS.Fin r ->
  playbackRate (video p') = JS.Fin r' ->
  r <= r' ->
  exists x x' : Q,
    changeSpeed p d = [Speed x] /\ changeSpeed p' d = [Speed x'] /\ x <= x'.
Proof.
  intros Hr Hr' Hle.
  destruct (changeSpeed_new_rate p r d Hr) as [x [Hx Ex]].
  destruct (changeSpeed_new_rate p' r' d Hr') as [x' [Hx' Ex']].
  exists x, x'. split; [exact Hx|]. split; [exact Hx'|].
  rewrite Ex, Ex'. unfold new_rate.
  assert (M : clamp (r + d) 0.25 2 <= clamp (r' + d) 0.25 2)
    by (apply clamp_monotone; lra).
  assert (F : (Qfloor (clamp (r + d) 0.25 2 * 100 + (1 # 2))
               <= Qfloor (clamp (r' + d) 0.25 2 * 100 + (1 # 2)))%Z)
    by (apply Qfloor_resp_le; lra).
  rewrite Zle_Qle in F. rewrite !Qdiv_100. lra.
Qed.

(** From the rates 1 and 2, a change of +0.05. *)
Lemma changeSpeed_monotone_on_examples :
  playbackRate (video example_player) = JS.Fin 1
  /\ playbackRate (video rate_two_player) = JS.Fin 2
  /\ 1 <= 2
  /\ exists x x' : Q,
       changeSpeed example_player 0.05 = [Speed x]
       /\ changeSpeed rate_two_player 0.05 = [Speed x'] /\ x <= x'.
Proof.
  split; [reflexivity|]. split; [reflexivity|].
  split; [vm_compute; discriminate|].
  apply (changeSpeed_is_monotone example_player rate_two_player 1 2 0.05
           eq_refl eq_refl).
  vm_compute; discriminate.
Defined.

Lemma Qfloor_unique (x : Q) (a : Z) :
  inject_Z a <= x -> x < inject_Z a + 1 -> Qfloor x = a.
Proof.
  intros L U.
  assert (F1 := Qfloor_le x). assert (F2 := Qlt_floor x).
  rewrite inject_Z_plus in F2. change (inject_Z 1) with 1 in F2.
  assert (A : inject_Z a < inject_Z (Qfloor x + 1)).
  { rewrite inject_Z_plus. change (inject_Z 1) with 1. lra. }
  assert (B : inject_Z (Qfloor x) < inject_Z (a + 1)).
  { rewrite inject_Z_plus. change (inject_Z 1) with 1. lra. }
  rewrite <- Zlt_Qlt in A, B. lia.
Qed.

Lemma clamp_inside (x lo hi : Q) :
  lo <= x <= hi -> clamp x lo hi == x.
Proof.
  intros [L U]. unfold clamp.
  destruct (Qle_bool x lo) eqn:E1; [apply Qle_bool_iff in E1; lra|].
  destruct (Qle_bool hi x) eqn:E2; [apply Qle_bool_iff in E2; lra|].
  reflexivity.
Qed.

(** On the grid of the hundredths the rounding changes nothing. *)
Lemma new_rate_on_grid (r d : Q) (n : Z) :
  r + d == inject_Z n / 100 -> (25 <= n <= 200)%Z ->
  new_rate r d == r + d.
Proof.
  intros E [L U]. unfold new_rate.
  rewrite Zle_Qle in L, U.
  change (inject_Z 25) with 25 in L. change (inject_Z 200) with 200 in U.
  rewrite Qdiv_100 in E.
  assert (C : clamp (r + d) 0.25 2 == r + d) by (apply clamp_inside; lra).
  assert (F : Qfloor (clamp (r + d) 0.25 2 * 100 + (1 # 2)) = n).
  { apply Qfloor_unique; rewrite C, E; lra. }
  rewrite F, Qdiv_100, E. reflexivity.
Qed.

(** X13.  Speeding up and slowing down undo each other away from the
    bounds: from a rate [r] that is a whole number of hundredths between
    0.25 and 1.95, a change of +0.05 passes on exactly [r + 0.05], and from
    that rate a change of -0.05 passes on [r] again. *)
Theorem speed_up_then_down_round_trip (p p' : Player) (r : Q) (n : Z) :
  playbackRate (video p) = JS.Fin r ->
  r == inject_Z n / 100 ->
  (25 <= n <= 195)%Z ->
  exists x : Q,
    changeSpeed p 0.05 = [Speed x]
    /\ x == r + 0.05
    /\ (playbackRate (video p') = JS.Fin x ->
        exists y : Q, changeSpeed p' (-0.05) = [Speed y] /\ y == r).
Proof.
  intros Hr Er Hn.
  destruct (changeSpeed_new_rate p r 0.05 Hr) as [x [Hx Ex]].
  assert (Gx : x == r + 0.05).
  { rewrite Ex. apply (new_rate_on_grid r 0.05 (n + 5)); [|lia].
    rewrite inject_Z_plus, Er, !Qdiv_100. change (inject_Z 5) with 5. lra. }
  exists x. split; [exact Hx|]. split; [exact Gx|].
  intros Hr'.
  destruct (changeSpeed_new_rate p' x (-0.05) Hr') as [y [Hy Ey]].
  exists y. split; [exact Hy|].
  rewrite Ey. rewrite (new_rate_on_grid x (-0.05) n); [lra| |lia].
  rewrite Gx, Er, !Qdiv_100. lra.
Qed.

(** From the rate 1: up to 1.05, and from 1.05 down to 1 again. *)
Lemma speed_round_trip_from_one :
  playbackRate (video example_player) = JS.Fin 1
  /\ 1 == inject_Z 100 / 100
  /\ (25 <= 100 <= 195)%Z
  /\ changeSpeed example_player 0.05 = [Speed (21 # 20)]
  /\ playbackRate (video faster_player) = JS.Fin (21 # 20)
  /\ exists y : Q, changeSpeed faster_player (-0.05) = [Speed y] /\ y == 1.
Proof.
  split; [reflexivity|]. split; [reflexivity|].
  split; [split; discriminate|]. split; [reflexivity|].
  split; [reflexivity|].
  destruct (speed_up_then_down_round_trip example_player faster_player 1 100
              eq_refl ltac:(reflexivity) ltac:(split; discriminate))
    as [x [Hx [_ Hback]]].
  apply Hback.
  change (changeSpeed example_player 0.05) with [Speed (21 # 20)] in Hx.
  injection Hx as Hx. rewrite <- Hx. reflexivity.
Defined.

(* ================================================================== *)
(** ** Registration of the listeners *)
(* ================================================================== *)

Lemma keydown_removeEventListener (doc : Document) (l l' : Listener) :
  In l' (keydown (removeEventListener doc l)) <->
  In l' (keydown doc) /\ l' <> l.
Proof.
  unfold removeEventListener. cbn [keydown]. rewrite filter_In.
  rewrite negb_true_iff.
  assert (E : same_listener l l' = false <-> l' <> l).
  { destruct (same_listener l l') eqn:S.
    - apply same_listener_eq in S. split; [discriminate|congruence].
    - split; [|reflexivity]. intros _ H. subst l'.
      assert (T : same_listener l l = true) by (apply same_listener_eq; reflexivity).
      congruence. }
  rewrite E. reflexivity.
Qed.

Lemma keydown_addEventListener (doc : Document) (l l' : Listener) :
  In l' (keydown (addEventListener doc l)) <->
  In l' (keydown doc) \/ l' = l.
Proof.
  unfold addEventListener. cbn [keydown].
  destruct (existsb (same_listener l) (keydown doc)) eqn:E.
  - apply existsb_exists in E. destruct E as [x [Hin Hx]].
    apply same_listener_eq in Hx. subst x.
    intuition congruence.
  - rewrite in_app_iff. cbn [In]. intuition congruence.
Qed.

(** A listener that is not on the document yet goes to the end of the
    list. *)
Lemma addEventListener_new (doc : Document) (l : Listener) :
  ~ In l (keydown doc) ->
  keydown (addEventListener doc l) = (keydown doc ++ [l])%list.
Proof.
  intros N. unfold addEventListener. cbn [keydown].
  destruct (existsb (same_listener l) (keydown doc)) eqn:E; [|reflexivity].
  apply existsb_exists in E. destruct E as [x [Hin Hx]].
  apply same_listener_eq in Hx. subst x. contradiction.
Qed.

Lemma constructor_fresh (this : Instance) (p : Player) (doc : Document) :
  fresh this doc ->
  keydown (constructor this p doc) = (keydown doc ++ own_listeners this p)%list.
Proof.
  intros F. unfold constructor, own_listeners. cbv zeta.
  assert (Nh : ~ In (doHotKeyHandler this) (keydown doc))
    by (intros H; exact (F _ H eq_refl)).
  assert (Nc : ~ In (cancelFullScreenHandler this) (keydown doc))
    by (intros H; exact (F _ H eq_refl)).
  destruct (hotkey (options p)).
  - rewrite addEventListener_new.
    + rewrite (addEventListener_new doc _ Nh), <- app_assoc. reflexivity.
    + rewrite keydown_addEventListener. intros [H|H]; [tauto|discriminate H].
  - rewrite (addEventListener_new doc _ Nc). reflexivity.
Qed.

(** X14.  The construction of a new instance puts its listeners at the end
    of the list, after those that are on the document already: the hotkey
    listener when the [hotkey] option is true, then the Escape listener.
    It removes nothing and leaves the active element alone; so the
    construction of a second instance registers two more listeners, beside
    those of the first. *)
Theorem constructor_registers (this : Instance) (p : Player)
  (doc : Document) :
  fresh this doc ->
  keydown (constructor this p doc) = (keydown doc ++ own_listeners this p)%list
  /\ activeElement (constructor this p doc) = activeElement doc
  /\ (forall (this' : Instance) (p' : Player),
         this' <> this -> fresh this' doc ->
         keydown (constructor this' p' (constructor this p doc))
         = (keydown doc ++ own_listeners this p ++ own_listeners this' p')%list).
Proof.
  intros F. split; [exact (constructor_fresh this p doc F)|]. split.
  - unfold constructor. cbv zeta.
    destruct (hotkey (options p)); reflexivity.
  - intros this' p' Hne F'.
    rewrite constructor_fresh.
    + rewrite (constructor_fresh this p doc F), <- app_assoc. reflexivity.
    + intros l Hl. rewrite (constructor_fresh this p doc F) in Hl.
      apply in_app_or in Hl. destruct Hl as [Hl|Hl]; [exact (F' l Hl)|].
      unfold own_listeners in Hl. apply in_app_or in Hl.
      destruct Hl as [Hl|[Hl|[]]].
      * destruct (hotkey (options p)); [|destruct Hl].
        destruct Hl as [Hl|[]]. subst l. cbn. congruence.
      * subst l. cbn. congruence.
Qed.

(** Two instances for the example player on the example document: four
    listeners. *)
Lemma two_constructions :
  fresh first_instance example_document
  /\ second_instance <> first_instance
  /\ fresh second_instance example_document
  /\ keydown (constructor second_instance example_player
                (constructor first_instance example_player example_document))
     = [doHotKeyHandler first_instance; cancelFullScreenHandler first_instance;
        doHotKeyHandler second_instance;
        cancelFullScreenHandler second_instance].
Proof.
  assert (F : forall i, fresh i example_document) by (intros i l []).
  split; [apply F|]. split; [discriminate|]. split; [apply F|].
  apply (proj2 (proj2 (constructor_registers first_instance example_player
                         example_document (F first_instance)))
           second_instance example_player).
  - discriminate.
  - apply F.
Defined.

(** X15.  [destroy] removes the Escape listener always, and the hotkey
    listener when the [hotkey] option is true at that time; calling it a
    second time changes nothing more. *)
Theorem destroy_unregisters (this : Instance) (p : Player) (doc : Document) :
  ~ In (cancelFullScreenHandler this) (keydown (destroy this p doc))
  /\ (hotkey (options p) = true ->
      ~ In (doHotKeyHandler this) (keydown (destroy this p doc)))
  /\ keydown (destroy this p (destroy this p doc))
     = keydown (destroy this p doc).
Proof.
  assert (F : forall (l : list Listener) f, filter f (filter f l) = filter f l).
  { intros l f. induction l as [|a l IH]; [reflexivity|].
    cbn. destruct (f a) eqn:E; cbn; [rewrite E; f_equal|]; exact IH. }
  assert (G : forall (l : list Listener) f g,
             filter g (filter f (filter g (filter f l)))
             = filter g (filter f l)).
  { intros l f g. induction l as [|a l IH]; [reflexivity|].
    cbn. destruct (f a) eqn:Ef; cbn; [|exact IH].
    destruct (g a) eqn:Eg; cbn; [|exact IH].
    rewrite Ef. cbn. rewrite Eg. f_equal. exact IH. }
  unfold destroy. cbv zeta. split; [|split].
  - rewrite keydown_removeEventListener. intuition congruence.
  - intros H. rewrite H. rewrite !keydown_removeEventListener.
    intuition congruence.
  - destruct (hotkey (options p)); unfold removeEventListener; cbn [keydown].
    + apply G.
    + apply F.
Qed.

(** After the constructor, [destroy] leaves no listener of the class on
    the example document. *)
Lemma construct_then_destroy :
  hotkey (options example_player) = true
  /\ keydown (constructor first_instance example_player example_document)
     = [doHotKeyHandler first_instance; cancelFullScreenHandler first_instance]
  /\ ~ In (doHotKeyHandler first_instance)
        (keydown (destroy first_instance example_player
                    (constructor first_instance example_player
                       example_document))).
Proof.
  split; [reflexivity|]. split; [reflexivity|].
  apply (destroy_unregisters first_instance example_player
           (constructor first_instance example_player example_document)).
  reflexivity.
Defined.

(** X16.  [destroy] reads the [hotkey] option again: when the option was
    true at construction and is false at destruction, the hotkey listener
    stays registered; the Escape listener is removed all the same. *)
Theorem destroy_keeps_hotkeys_when_option_switched_off (this : Instance)
  (p : Player) (doc : Document) (o : Options) :
  hotkey (options p) = true ->
  hotkey o = false ->
  In (doHotKeyHandler this)
     (keydown (destroy this (with_options o p) (constructor this p doc)))
  /\ ~ In (cancelFullScreenHandler this)
         (keydown (destroy this (with_options o p) (constructor this p doc))).
Proof.
  intros Hp Ho. unfold destroy. cbv zeta. cbn [with_options options].
  rewrite Ho. rewrite !keydown_removeEventListener.
  split; [|intuition congruence].
  split; [|discriminate].
  unfold constructor. cbv zeta. rewrite Hp.
  rewrite !keydown_addEventListener. left. right. reflexivity.
Qed.

(** With the option switched off before [destroy], the hotkey listener of
    the example player stays on the document. *)
Lemma hotkeys_survive_destroy :
  hotkey (options example_player) = true
  /\ In (doHotKeyHandler first_instance)
       (keydown (destroy first_instance
                   (with_options {| hotkey := false; live := false |}
                      example_player)
                   (constructor first_instance example_player
                      example_document))).
Proof.
  split; [reflexivity|].
  apply (destroy_keeps_hotkeys_when_option_switched_off first_instance
           example_player example_document
           {| hotkey := false; live := false |} eq_refl eq_refl).
Defined.

(* ================================================================== *)
(** ** The fields of the screenshot name *)
(* ================================================================== *)

Lemma Qfloor_div_Z (t : Q) (n : Z) :
  (0 < n)%Z -> Qfloor (t / inject_Z n) = (Qfloor t / n)%Z.
Proof.
  intros Hn.
  assert (L := Qfloor_le t). assert (U := Qlt_floor t).
  rewrite inject_Z_plus in U. change (inject_Z 1) with 1 in U.
  assert (D := Z.div_mod (Qfloor t) n ltac:(lia)).
  assert (B := Z.mod_pos_bound (Qfloor t) n Hn).
  set (q := (Qfloor t / n)%Z) in *. set (r := (Qfloor t mod n)%Z) in *.
  assert (DQ : inject_Z (Qfloor t) == inject_Z n * inject_Z q + inject_Z r).
  { rewrite D at 1. rewrite inject_Z_plus, inject_Z_mult. reflexivity. }
  assert (R0 : 0 <= inject_Z r).
  { change 0 with (inject_Z 0). rewrite <- Zle_Qle. lia. }
  assert (R1 : inject_Z r + 1 <= inject_Z n).
  { change 1 with (inject_Z 1). rewrite <- inject_Z_plus, <- Zle_Qle. lia. }
  assert (N0 : 0 < inject_Z n).
  { change 0 with (inject_Z 0). rewrite <- Zlt_Qlt. exact Hn. }
  apply Qfloor_unique.
  - apply Qle_shift_div_l; [exact N0|].
    rewrite (Qmult_comm (inject_Z q)). lra.
  - apply Qlt_shift_div_r; [exact N0|].
    rewrite Qmult_plus_distr_l, (Qmult_comm (inject_Z q)), Qmult_1_l. lra.
Qed.

Lemma Qfloor_Qmod_Z (t : Q) (n : Z) :
  (0 < n)%Z -> Qfloor (Qmod t (inject_Z n)) = (Qfloor t mod n)%Z.
Proof.
  intros Hn. unfold Qmod. rewrite (Qfloor_div_Z t n Hn).
  assert (L := Qfloor_le t). assert (U := Qlt_floor t).
  rewrite inject_Z_plus in U. change (inject_Z 1) with 1 in U.
  assert (D := Z.div_mod (Qfloor t) n ltac:(lia)).
  set (q := (Qfloor t / n)%Z) in *. set (r := (Qfloor t mod n)%Z) in *.
  assert (DQ : inject_Z (Qfloor t) == inject_Z n * inject_Z q + inject_Z r).
  { rewrite D at 1. rewrite inject_Z_plus, inject_Z_mult. reflexivity. }
  apply Qfloor_unique; lra.
Qed.

Lemma takeScreenshot_timestamp (p : Player) (t : Q) :
  currentTime (video p) = JS.Fin t -> 0 <= t ->
  takeScreenshot p =
    [DrawImage (videoWidth (video p)) (videoHeight (video p));
     ToBlob ("screenshot_" ++ timestamp t ++ ".png");
     Notice ("Screenshot: " ++ timestamp t)].
Proof.
  intros Ht Hpos. unfold takeScreenshot. cbv zeta. rewrite Ht.
  rewrite (rem_nonneg t 3600 Hpos) by lra.
  rewrite (rem_nonneg t 60 Hpos) by lra.
  rewrite !floor_div by lra.
  cbn [JS.Math_floor]. rewrite !toString_integer.
  rewrite JSFacts.Qfloor_Qred.
  rewrite (Qfloor_comp (Qred (Qmod t 3600) / 60) (Qmod t 3600 / 60))
    by (rewrite Qred_correct; reflexivity).
  rewrite !padStart_two_digits; [reflexivity|..].
  - apply Qfloor_nonneg, Qmod_nonneg. lra.
  - apply Qfloor_nonneg, Qdiv_nonneg; [apply Qmod_nonneg|]; lra.
  - apply Qfloor_nonneg, Qdiv_nonneg; [exact Hpos|lra].
Qed.

Lemma append_assoc (s1 s2 s3 : string) :
  (s1 ++ s2) ++ s3 = s1 ++ (s2 ++ s3).
Proof.
  induction s1 as [|c s1 IH]; [reflexivity|]. cbn. now rewrite IH.
Qed.

Lemma length_append (s s' : string) :
  String.length (s ++ s') = (String.length s + String.length s')%nat.
Proof.
  induction s as [|c s IH]; [reflexivity|]. cbn. now rewrite IH.
Qed.

Lemma two_digits_length (n : Z) :
  (0 <= n < 100)%Z -> String.length (two_digits n) = 2%nat.
Proof.
  intros H.
  assert (A : forallb (fun k => Nat.eqb (String.length
                                           (two_digits (Z.of_nat k))) 2)
                (seq 0 100) = true) by (vm_compute; reflexivity).
  rewrite forallb_forall in A.
  specialize (A (Z.to_nat n)). rewrite Z2Nat.id in A by lia.
  apply Nat.eqb_eq, A, in_seq. lia.
Qed.

(** X17.  The three fields of the screenshot name are the whole seconds
    of the current time split into hours, minutes and seconds: for a time
    [t >= 0] the name is [screenshot_h-m-s.png], fields on at least two
    digits, with [0 <= m < 60], [0 <= s < 60] and [3600 h + 60 m + s] the
    integer part of [t].  Under a hundred hours the name has exactly 23
    characters. *)
Theorem screenshot_fields_decode (p : Player) (t : Q) :
  currentTime (video p) = JS.Fin t ->
  0 <= t ->
  exists h m s : Z,
    takeScreenshot p =
      [DrawImage (videoWidth (video p)) (videoHeight (video p));
       ToBlob ("screenshot_" ++ two_digits h ++ "-" ++ two_digits m ++ "-"
               ++ two_digits s ++ ".png");
       Notice ("Screenshot: " ++ two_digits h ++ "-" ++ two_digits m ++ "-"
               ++ two_digits s)]
    /\ (0 <= h)%Z /\ (0 <= m < 60)%Z /\ (0 <= s < 60)%Z
    /\ (h * 3600 + m * 60 + s)%Z = Qfloor t
    /\ (t < 360000 ->
        String.length ("screenshot_" ++ two_digits h ++ "-" ++ two_digits m
                       ++ "-" ++ two_digits s ++ ".png") = 23%nat).
Proof.
  intros Ht Hpos.
  assert (T0 : (0 <= Qfloor t)%Z) by (apply Qfloor_nonneg; exact Hpos).
  exists (Qfloor t / 3600)%Z, (Qfloor t mod 3600 / 60)%Z, (Qfloor t mod 60)%Z.
  split.
  - rewrite (takeScreenshot_timestamp p t Ht Hpos). unfold timestamp.
    change 3600 with (inject_Z 3600). change 60 with (inject_Z 60).
    rewrite (Qfloor_div_Z t 3600) by lia.
    rewrite (Qfloor_div_Z (Qmod t (inject_Z 3600)) 60) by lia.
    rewrite (Qfloor_Qmod_Z t 3600) by lia.
    rewrite (Qfloor_Qmod_Z t 60) by lia.
    rewrite !append_assoc. reflexivity.
  - assert (H1 : (0 <= Qfloor t / 3600)%Z) by (apply Z.div_pos; lia).
    assert (H2 : (0 <= Qfloor t mod 3600 / 60 < 60)%Z).
    { assert (B := Z.mod_pos_bound (Qfloor t) 3600 ltac:(lia)).
      split; [apply Z.div_pos; lia|].
      apply Z.div_lt_upper_bound; lia. }
    assert (H3 : (0 <= Qfloor t mod 60 < 60)%Z)
      by (apply Z.mod_pos_bound; lia).
    split; [exact H1|]. split; [exact H2|]. split; [exact H3|]. split.
    + clear. Z.div_mod_to_equations. lia.
    + intros Hlt.
      assert (H4 : (Qfloor t / 3600 < 100)%Z).
      { apply Z.div_lt_upper_bound; [lia|].
        assert (F := Qfloor_le t).
        assert (Q : inject_Z (Qfloor t) < inject_Z 360000).
        { change (inject_Z 360000) with 360000. lra. }
        rewrite <- Zlt_Qlt in Q. lia. }
      rewrite !length_append, !two_digits_length by lia. reflexivity.
Qed.

(** At 125.4 seconds: 0 hours, 2 minutes, 5 seconds. *)
Lemma screenshot_fields_at_125_4 :
  currentTime (video capture_player) = JS.Fin 125.4
  /\ 0 <= 125.4
  /\ exists h m s : Z,
       In (ToBlob ("screenshot_" ++ two_digits h ++ "-" ++ two_digits m
                   ++ "-" ++ two_digits s ++ ".png"))
          (takeScreenshot capture_player)
       /\ (h * 3600 + m * 60 + s)%Z = 125%Z.
Proof.
  split; [reflexivity|]. split; [vm_compute; discriminate|].
  destruct (screenshot_fields_decode capture_player 125.4 eq_refl
              ltac:(vm_compute; discriminate))
    as [h [m [s [Hs [_ [_ [_ [Hsum _]]]]]]]].
  exists h, m, s. split; [|exact Hsum].
  rewrite Hs. right. left. reflexivity.
Defined.

(* ================================================================== *)
(** ** More on the guard, the digits, Enter and the key [a] *)
(* ================================================================== *)

(** X18.  The guard knows two values of [contenteditable] only: an active
    element whose attribute has any other value (["plaintext-only"],
    ["false"], ["TRUE"]) is treated as if it had no such attribute. *)
Theorem other_contenteditable_values_pass (p : Player) (doc : Document)
  (e : KeyboardEvent) (v : string) :
  contenteditable (activeElement doc) = Some v ->
  v <> "" -> v <> "true" ->
  doHotKey p doc e = doHotKey p (without_contenteditable doc) e.
Proof.
  intros Hv H1 H2. unfold doHotKey. cbv zeta.
  cbn [without_contenteditable activeElement tagName contenteditable].
  rewrite Hv. cbn [attr_is].
  apply String.eqb_neq in H1, H2. rewrite H1, H2. reflexivity.
Qed.

(** In an element that is editable as plain text the space bar still
    toggles the playback. *)
Lemma plaintext_only_passes :
  contenteditable (activeElement plaintext_document) = Some "plaintext-only"
  /\ doHotKey example_player plaintext_document plain_space
     = doHotKey example_player (without_contenteditable plaintext_document)
         plain_space
  /\ doHotKey example_player plaintext_document plain_space
     = [PreventDefault; Toggle].
Proof.
  split; [reflexivity|]. split; [|reflexivity].
  apply (other_contenteditable_values_pass example_player plaintext_document
           plain_space "plaintext-only" eq_refl); discriminate.
Defined.

Lemma doHotKey_digit (p : Player) (doc : Document) (e : KeyboardEvent)
  (k : Z) :
  eligible p doc = true ->
  (0 <= k <= 9)%Z ->
  key e = digit_label k ->
  (keyCode e = 48 + k \/ keyCode e = 96 + k)%Z ->
  ctrlKey e && shiftKey e = false ->
  live (options p) = false ->
  doHotKey p doc e =
    PreventDefault :: seekToPercent p (JS.Fin (inject_Z (k * 10))).
Proof.
  intros El Hk Hkey Hcode Hcs Hlive.
  rewrite (doHotKey_eligible p doc e El).
  unfold rule1, rule2, rule3, rule4. rewrite Hkey, Hcs.
  destruct (digit_label_no_modifier_letter k Hk) as [Hx [Hz Hs]].
  rewrite Hx, Hz, Hs, !andb_false_r.
  rewrite not_a_switch_code by lia.
  rewrite (handleLetterKeys_digit p e k Hk), Hlive. reflexivity.
Qed.

(** X19.  On a stream whose duration is infinite, with the [live] option
    off, the digit keys still seek: the key 0 passes [NaN] to [seek], the
    keys 1 to 9 pass [Infinity], and the notice is given as usual. *)
Theorem digit_keys_on_endless_stream (p : Player) (doc : Document)
  (e : KeyboardEvent) (k : Z) :
  eligible p doc = true ->
  (0 <= k <= 9)%Z ->
  key e = digit_label k ->
  (keyCode e = 48 + k \/ keyCode e = 96 + k)%Z ->
  ctrlKey e && shiftKey e = false ->
  live (options p) = false ->
  duration (video p) = JS.Inf false ->
  doHotKey p doc e =
    [PreventDefault;
     Seek (if (k =? 0)%Z then JS.NaN else JS.Inf false) (Some true);
     Notice ("Seek: " ++ JS.Z_to_string (k * 10) ++ "%")].
Proof.
  intros El Hk Hkey Hcode Hcs Hlive Hd.
  rewrite (doHotKey_digit p doc e k El Hk Hkey Hcode Hcs Hlive).
  unfold seekToPercent. rewrite Hd. cbn [JS.truthy].
  rewrite toString_integer.
  each_digit k Hk; reflexivity.
Qed.

(** The keys 0 and 7 on the endless stream. *)
Lemma digits_on_endless_example :
  eligible endless_player example_document = true
  /\ duration (video endless_player) = JS.Inf false
  /\ doHotKey endless_player example_document plain_0
     = [PreventDefault; Seek JS.NaN (Some true); Notice "Seek: 0%"]
  /\ doHotKey endless_player example_document plain_7
     = [PreventDefault; Seek (JS.Inf false) (Some true); Notice "Seek: 70%"].
Proof.
  split; [reflexivity|]. split; [reflexivity|]. split.
  - apply (digit_keys_on_endless_stream endless_player example_document
             plain_0 0 eq_refl ltac:(split; discriminate) eq_refl
             (or_introl eq_refl) eq_refl eq_refl eq_refl).
  - apply (digit_keys_on_endless_stream endless_player example_document
             plain_7 7 eq_refl ltac:(split; discriminate) eq_refl
             (or_introl eq_refl) eq_refl eq_refl eq_refl).
Defined.

(** X20.  An eligible keydown with key code 13 that no modifier rule takes
    resets the speed to 1 exactly when it comes from the numeric keypad
    (location 3), whatever its key label. *)
Theorem enter_resets_speed_on_keypad (p : Player) (doc : Document)
  (e : KeyboardEvent) :
  eligible p doc = true ->
  modifier_rule e = false ->
  keyCode e = 13%Z ->
  (doHotKey p doc e = [PreventDefault; Speed 1] <-> location e = 3%Z).
Proof.
  intros El Hm Hk. rewrite (doHotKey_unmodified p doc e El Hm), Hk.
  cbn [Z.eqb Pos.eqb].
  destruct (Z.eqb_spec (location e) 3) as [E|E].
  - split; [intros _; exact E|reflexivity].
  - split; [discriminate|contradiction].
Qed.

(** Enter on the numeric keypad. *)
Lemma numpad_enter_resets_speed :
  eligible example_player example_document = true
  /\ modifier_rule numpad_enter = false
  /\ keyCode numpad_enter = 13%Z
  /\ doHotKey example_player example_document numpad_enter
     = [PreventDefault; Speed 1].
Proof.
  split; [reflexivity|]. split; [reflexivity|]. split; [reflexivity|].
  apply (enter_resets_speed_on_keypad example_player example_document
           numpad_enter eq_refl eq_refl eq_refl).
  reflexivity.
Defined.

(** X21.  The key [a], on an eligible event off a live stream, always
    seeks, known duration or not: to [t - 5] from a time [t] of 5 seconds
    or more and to 0 before that, so never before the start and never
    forwards; when the current time is [NaN] it seeks to 0. *)
Theorem a_key_stops_at_the_start (p : Player) (doc : Document)
  (e : KeyboardEvent) :
  eligible p doc = true ->
  modifier_rule e = false ->
  ~ In (keyCode e) switch_codes ->
  JS.toLowerCase (key e) = "a" ->
  live (options p) = false ->
  (forall t : Q,
      currentTime (video p) = JS.Fin t ->
      exists x : Q,
        doHotKey p doc e = [PreventDefault; Seek x None; SetAutoHide]
        /\ (5 <= t -> x == t - 5)
        /\ (t < 5 -> x == 0)
        /\ (0 <= t -> 0 <= x <= t))
  /\ (currentTime (video p) = JS.NaN ->
      doHotKey p doc e = [PreventDefault; Seek 0 None; SetAutoHide]).
Proof.
  intros El Hm Hc Hkey Hl.
  rewrite (doHotKey_letter p doc e El Hm Hc).
  unfold handleLetterKeys. cbv zeta. rewrite Hkey, Hl.
  cbn [String.eqb Ascii.eqb Bool.eqb]. split.
  - intros t Ht. rewrite Ht. cbn [JS.sub]. unfold JS.fin.
    destruct (JS.ge t 5) eqn:G.
    + apply JSFacts.ge_Fin in G.
      eexists. split; [reflexivity|]. rewrite Qred_correct.
      repeat split; intros; lra.
    + assert (L : t < 5).
      { apply Qnot_le_lt. intros L. apply JSFacts.ge_Fin in L. congruence. }
      eexists. split; [reflexivity|].
      repeat split; intros; lra.
  - intros Ht. rewrite Ht. reflexivity.
Qed.

(** The key [a] at 3 seconds, on a video of unknown duration. *)
Lemma a_key_without_duration :
  eligible unknown_duration_player example_document = true
  /\ modifier_rule plain_a = false
  /\ ~ In (keyCode plain_a) switch_codes
  /\ exists x : Q,
       doHotKey unknown_duration_player example_document plain_a
       = [PreventDefault; Seek x None; SetAutoHide]
       /\ x == 0.
Proof.
  assert (C : ~ In (keyCode plain_a) switch_codes)
    by (cbn; intuition discriminate).
  split; [reflexivity|]. split; [reflexivity|]. split; [exact C|].
  destruct (proj1 (a_key_stops_at_the_start unknown_duration_player
                     example_document plain_a eq_refl eq_refl C eq_refl
                     eq_refl) 3 eq_refl)
    as [x [Hx [_ [H0 _]]]].
  exists x. split; [exact Hx|]. apply H0. vm_compute. reflexivity.
Defined.

(* ================================================================== *)
(** ** Bounds of the seek time, key by key *)
(* ================================================================== *)

Lemma lt_asym (x y : JS.number) :
  (x < y)%js = true -> (y < x)%js = false.
Proof.
  destruct x as [|a|p], y as [|b|q]; cbn; try discriminate;
    try (destruct a; discriminate); try (destruct b; discriminate).
  - destruct a, b; cbn; congruence.
  - destruct a; cbn; congruence.
  - destruct b; cbn; congruence.
  - rewrite negb_true_iff, negb_false_iff. intros H.
    apply Qle_bool_iff.
    assert (~ q <= p) by (intros L; apply Qle_bool_iff in L; congruence).
    lra.
Qed.

(** A duration that is not below [a] is not below anything smaller. *)
Lemma not_below_smaller (d : JS.number) (a b : Q) :
  (d < JS.Fin a)%js = false -> b <= a -> (d < JS.Fin b)%js = false.
Proof.
  destruct d as [|n|D]; cbn; try (intros; assumption).
  rewrite !negb_false_iff. intros H L. apply Qle_bool_iff in H.
  apply Qle_bool_iff. lra.
Qed.

Lemma not_negative_Fin (q : Q) : 0 <= q -> (JS.Fin q < 0)%js = false.
Proof. intros H. apply JSFacts.lt_Fin_false. exact H. Qed.

(** The seeks of [doHotKey] on a player at the time [t], rule by rule: the
    two arrows, the key [a], the key [d] and the digits. *)
Lemma seek_time_cases (p : Player) (doc : Document) (e : KeyboardEvent)
  (t : Q) (x : JS.number) (s : option bool) :
  currentTime (video p) = JS.Fin t ->
  In (Seek x s) (doHotKey p doc e) ->
  (keyCode e = 37%Z /\ x = JS.Fin (Qred (t - 5)))
  \/ (keyCode e = 39%Z /\ x = JS.Fin (Qred (t + 5)))
  \/ (keyCode e <> 39%Z /\ 5 <= t /\ x = JS.Fin (Qred (t - 5)))
  \/ (keyCode e <> 39%Z /\ x = JS.Fin 0)
  \/ (keyCode e <> 39%Z /\ x = JS.Fin (Qred (t + 5))
      /\ (x < duration (video p))%js = true)
  \/ (keyCode e <> 39%Z /\ JS.toLowerCase (key e) = "d"
      /\ JS.truthy (duration (video p)) = true
      /\ (JS.Fin (Qred (t + 5)) < duration (video p))%js = false
      /\ x = (duration (video p) - 1)%js)
  \/ (keyCode e <> 39%Z
      /\ exists n : Z,
           (0 <= n <= 9)%Z
           /\ JS.truthy (duration (video p)) = true
           /\ x = (JS.Fin (inject_Z (n * 10)) / 100 * duration (video p))%js).
Proof.
  intros Ht H. apply doHotKey_origin in H. destruct H as [_ H].
  destruct H as [[_ H]|[_ H]]; [scan H|].
  destruct H as [[_ H]|[[Hk H]|[[Hk H]|[[_ H]|[[_ H]|[[_ [_ H]]|[Hc H]]]]]]];
    try solve [scan H].
  - left. split; [exact Hk|]. rewrite Ht in H. scan H.
    injection H as H _. subst x. reflexivity.
  - right; left. split; [exact Hk|]. rewrite Ht in H. scan H.
    injection H as H _. subst x. reflexivity.
  - assert (N : keyCode e <> 39%Z).
    { intros E. apply Hc. rewrite E. cbn. tauto. }
    destruct (handleLetterKeys_cases p e (key e))
      as [[_ K]|[[L K]|[[_ K]|[[_ K]|[[_ K]|[[_ K]|[[_ K]|[[n [Hn [_ K]]]|[_ K]]]]]]]]];
      rewrite K in H; try solve [scan H]; rewrite ?Ht in H.
    + destruct (live (options p)); [scan H|].
      destruct (JS.Fin t >= 5)%js eqn:G.
      * apply JSFacts.ge_Fin in G. scan H.
        do 2 right; left. split; [exact N|]. split; [exact G|].
        injection H as H _. subst x. reflexivity.
      * scan H. do 3 right; left. split; [exact N|].
        injection H as H _. subst x. reflexivity.
    + destruct (live (options p)); [scan H|].
      destruct (JS.truthy (duration (video p))) eqn:T;
        cbn [andb JS.add] in H; unfold JS.fin in H; [|scan H].
      destruct (JS.Fin (Qred (t + 5)) < duration (video p))%js eqn:Lt.
      * scan H. do 4 right; left. split; [exact N|].
        injection H as H _. subst x.
        split; [reflexivity|first [exact Lt|reflexivity]].
      * scan H. do 5 right; left. split; [exact N|]. split; [exact L|].
        split; [reflexivity|]. split; [first [exact Lt|reflexivity]|].
        injection H as H _. subst x. reflexivity.
    + destruct (live (options p)); cbn [negb] in H; [scan H|].
      unfold seekToPercent in H.
      destruct (JS.truthy (duration (video p))) eqn:T; [|scan H].
      cbn [In] in H. destruct H as [H|[H|[H|[]]]]; try discriminate H.
      do 6 right. split; [exact N|]. exists n. split; [exact Hn|].
      split; [reflexivity|]. injection H as H _. subst x. reflexivity.
Qed.

(** The time of a percentage seek on a stream without end. *)
Lemma percent_of_infinity (n : Z) :
  (0 <= n <= 9)%Z ->
  (JS.Fin (inject_Z (n * 10)) / 100 * JS.Inf false)%js
  = if (n =? 0)%Z then JS.NaN else JS.Inf false.
Proof. intros H. each_digit n H; reflexivity. Qed.

(** C3, as the code has it.  On a player whose time [t] is not negative
    and not above the duration, for every seek that [doHotKey] issues:
    the time passed is not above the duration (nothing is, when the
    duration is unknown), except for the right arrow, which passes [t + 5]
    as it is; the time passed is not negative, where two cases are left
    aside, the left arrow before 5 seconds and the key [d] on a video
    shorter than a second; and unless the duration is infinite the time is
    a finite number.  ([x < y] is the comparison of JavaScript.) *)
Theorem seek_time_bounds (p : Player) (doc : Document) (e : KeyboardEvent)
  (t : Q) :
  currentTime (video p) = JS.Fin t ->
  0 <= t ->
  (duration (video p) < JS.Fin t)%js = false ->
  (forall x s,
      In (Seek x s) (doHotKey p doc e) ->
      (keyCode e <> 39%Z -> (duration (video p) < x)%js = false)
      /\ ((keyCode e = 37%Z -> 5 <= t) ->
          (JS.toLowerCase (key e) = "d" ->
           forall D : Q, duration (video p) = JS.Fin D -> 0 < D -> 1 <= D) ->
          (x < 0)%js = false)
      /\ ((forall b, duration (video p) <> JS.Inf b) ->
          exists q : Q, x = JS.Fin q))
  /\ (eligible p doc = true -> modifier_rule e = false ->
      live (options p) = false -> keyCode e = 39%Z ->
      exists x : Q,
        doHotKey p doc e = [PreventDefault; Seek x None; SetAutoHide]
        /\ x == t + 5).
Proof.
  intros Ht Hpos Hdur. split.
  - intros x s H.
    destruct (seek_time_cases p doc e t x s Ht H)
      as [[Hk Hx]|[[Hk Hx]|[[Hk [H5 Hx]]|[[Hk Hx]|[[Hk [Hx Hlt]]
         |[[Hk [Hd [T [Hge Hx]]]]|[Hk [n [Hn [T Hx]]]]]]]]]].
    + subst x. split; [|split].
      * intros _. apply (not_below_smaller _ t); [exact Hdur|].
        rewrite Qred_correct. lra.
      * intros H5 _. apply not_negative_Fin. rewrite Qred_correct.
        specialize (H5 Hk). lra.
      * intros _. eexists. reflexivity.
    + subst x. split; [|split].
      * intros N. contradiction.
      * intros _ _. apply not_negative_Fin. rewrite Qred_correct. lra.
      * intros _. eexists. reflexivity.
    + subst x. split; [|split].
      * intros _. apply (not_below_smaller _ t); [exact Hdur|].
        rewrite Qred_correct. lra.
      * intros _ _. apply not_negative_Fin. rewrite Qred_correct. lra.
      * intros _. eexists. reflexivity.
    + subst x. split; [|split].
      * intros _. apply (not_below_smaller _ t); [exact Hdur|exact Hpos].
      * intros _ _. apply not_negative_Fin. lra.
      * intros _. eexists. reflexivity.
    + split; [|split].
      * intros _. apply lt_asym. exact Hlt.
      * intros _ _. subst x. apply not_negative_Fin. rewrite Qred_correct.
        lra.
      * intros _. subst x. eexists. reflexivity.
    + destruct (duration (video p)) as [|b|D] eqn:Ed.
      * discriminate T.
      * destruct b; [discriminate Hdur|discriminate Hge].
      * assert (HD : ~ D == 0) by (apply JSFacts.truthy_Fin; exact T).
        apply JSFacts.lt_Fin_false in Hdur.
        subst x. cbn [JS.sub]. unfold JS.fin. split; [|split].
        -- intros _. apply JSFacts.lt_Fin_false. rewrite Qred_correct. lra.
        -- intros _ H1. apply not_negative_Fin. rewrite Qred_correct.
           assert (1 <= D) by (apply (H1 Hd D eq_refl); lra). lra.
        -- intros _. eexists. reflexivity.
    + destruct (duration (video p)) as [|b|D] eqn:Ed.
      * discriminate T.
      * destruct b; [discriminate Hdur|].
        rewrite (percent_of_infinity n Hn) in Hx. subst x.
        split; [|split].
        -- intros _. destruct (n =? 0)%Z; reflexivity.
        -- intros _ _. destruct (n =? 0)%Z; reflexivity.
        -- intros Hb. exfalso. exact (Hb false eq_refl).
      * assert (HD : ~ D == 0) by (apply JSFacts.truthy_Fin; exact T).
        apply JSFacts.lt_Fin_false in Hdur.
        cbn [JS.div JS.mul] in Hx. change (JS.Qzero 100) with false in Hx.
        cbv iota in Hx. unfold JS.fin in Hx. cbn [JS.mul] in Hx.
        unfold JS.fin in Hx.
        destruct (percent_time (n * 10) D) as [_ B].
        cbv zeta in B. specialize (B ltac:(lia) ltac:(lra)).
        subst x. split; [|split].
        -- intros _. apply JSFacts.lt_Fin_false. apply B.
        -- intros _ _. apply not_negative_Fin. apply B.
        -- intros _. eexists. reflexivity.
  - intros El Hm Hlive Hk.
    rewrite (doHotKey_unmodified p doc e El Hm), Hk, Hlive, Ht.
    cbn [Z.eqb Pos.eqb JS.add]. eexists.
    split; [reflexivity|apply Qred_correct].
Qed.

(** Scenario C: the key [d] at 97 seconds of 100 seeks to 99, a time
    between 0 and the duration; the right arrow passes 97 + 5. *)
Lemma seek_time_bounds_on_examples :
  currentTime (video near_end_player) = JS.Fin 97
  /\ 0 <= 97
  /\ (duration (video near_end_player) < JS.Fin 97)%js = false
  /\ In (Seek 99 None) (doHotKey near_end_player example_document plain_d)
  /\ (duration (video near_end_player) < JS.Fin 99)%js = false
  /\ (JS.Fin 99 < 0)%js = false
  /\ (exists x : Q,
        doHotKey near_end_player example_document plain_right
        = [PreventDefault; Seek x None; SetAutoHide]
        /\ x == 97 + 5).
Proof.
  assert (I : In (Seek 99 None)
                (doHotKey near_end_player example_document plain_d))
    by (right; left; reflexivity).
  assert (A : 0 <= 97) by (vm_compute; discriminate).
  split; [reflexivity|]. split; [exact A|]. split; [reflexivity|].
  split; [exact I|].
  destruct (proj1 (seek_time_bounds near_end_player example_document plain_d
                     97 eq_refl A eq_refl) (JS.Fin 99) None I)
    as [U [L _]].
  split; [apply U; discriminate|]. split.
  - apply L.
    + discriminate.
    + intros _ D HD _. injection HD as HD. rewrite <- HD.
      vm_compute; discriminate.
  - apply (proj2 (seek_time_bounds near_end_player example_document
                    plain_right 97 eq_refl A eq_refl)
             eq_refl eq_refl eq_refl eq_refl).
Defined.
